(** * Channel enforcement bot (main.py): anti-spam window, warning ledger,
      join-reminder throttle and resets

    A shallow embedding of [ChannelEnforcementBot] of [src/main.py].

    - The three dictionaries of the bot object ([msg_times], [warnings],
      [last_reminder]) are finite maps keyed by the integer user id.
    - A [datetime] is the number of microseconds since the epoch (the
      resolution of Python's [datetime]); a [timedelta] is a number of
      microseconds.  All datetimes of the program carry the same time zone
      [TZ], so comparing and subtracting them is comparing and subtracting
      these integers.
    - Every coroutine is a computation in the monad [M]: it threads the bot
      object, may raise an exception, and logs the calls it makes to the
      Telegram transport.  What the transport answers (and what the clock
      reads) during one invocation is the handler's environment.
    - The application is built with [Application.builder().token(..).build()],
      that is without concurrent update processing: a handler coroutine is
      awaited to its end before the next update is dispatched, so a handler
      is one step of the state machine.  The daily job has no [await] of its
      own and is one step too; a run of the job in the middle of a suspended
      handler is not part of the model. *)

From Stdlib Require Import ZArith Lia Sorted.
From stdpp Require Import gmap strings list pretty.

Open Scope Z_scope.

(** ** Configuration (main.py, lines 21-34) *)

Definition GROUP_USERNAME : string := "@Raport_seminarr0".
Definition CHANNEL_USERNAME : string := "@raport_smenarr".
Definition SPAM_MAX_MSG : Z := 5.
Definition SPAM_WINDOW_SEC : Z := 10.
Definition WARNING_AUTO_DELETE_SEC : Z := 60.
Definition TZ : string := "Asia/Baghdad".

(** ** Time *)

Definition timedelta_seconds (s : Z) : Z := s * 1000000.
Definition timedelta_minutes (m : Z) : Z := m * 60 * 1000000.

(** ** Telegram objects *)

Record User := {
  user_id : Z;
  first_name : string;
  username : option string
}.

(** [update.message] is either absent or present; [effective_user] and
    [effective_chat] are the sender and the chat of a group message. *)
Record Update := {
  has_message : bool;
  effective_user : User;
  effective_chat_id : Z
}.

(** The exceptions a transport call can raise, by the class that the
    [except] clauses of the program tell apart: [BadRequest], [Forbidden],
    and every other subclass of [Exception] (a time-out, a network error,
    flood control, ...). *)
Inductive Exn := BadRequest | Forbidden | OtherException.

Inductive Outcome (A : Type) :=
| Returned (a : A)
| Raised (e : Exn).
Arguments Returned {A} a.
Arguments Raised {A} e.

Inductive ChatRef :=
| ChatName (name : string)
| ChatId (chat : Z).

Inductive MsgRef :=
| IncomingMessage
| SentNotice.

(** The calls made to the transport (and to the event loop's [sleep]). *)
Inductive Call :=
| GetChatMember (chat : ChatRef) (uid : Z)
| SendMessage (chat_id : Z) (text : string)
              (reply_markup : option (string * string)) (parse_mode : option string)
| DeleteMessage (m : MsgRef)
| ReplyText (text : string)
| Sleep (seconds : Z).

(** ** The bot object *)

Record Bot := {
  msg_times : gmap Z (list Z);
  warnings : gmap Z Z;
  last_reminder : gmap Z Z
}.

(** [ChannelEnforcementBot.__init__]: three empty dictionaries. *)
Definition init : Bot :=
  {| msg_times := ∅; warnings := ∅; last_reminder := ∅ |}.

(** ** The monad of coroutines *)

Definition M (A : Type) : Type := Bot -> Outcome A * Bot * list Call.

Definition ret {A} (a : A) : M A := fun b => (Returned a, b, []).

Definition bind {A B} (m : M A) (k : A -> M B) : M B := fun b =>
  match m b with
  | (Returned a, b1, tr1) =>
      match k a b1 with
      | (r, b2, tr2) => (r, b2, tr1 ++ tr2)
      end
  | (Raised e, b1, tr1) => (Raised e, b1, tr1)
  end.

Declare Scope bot_scope.
Delimit Scope bot_scope with bot.
Notation "x <- m ;; k" := (bind m (fun x => k))
  (at level 100, m at next level, right associativity) : bot_scope.
Notation "m ;; k" := (bind m (fun _ => k))
  (at level 100, right associativity) : bot_scope.
Open Scope bot_scope.

(** [try: m except <classes>: h]: the handler [h e] runs from the state the
    body left when it raised; [None] stands for a class the clause does not
    list, which is raised again. *)
Definition try_except {A} (m : M A) (h : Exn -> option (M A)) : M A := fun b =>
  match m b with
  | (Returned a, b1, tr1) => (Returned a, b1, tr1)
  | (Raised e, b1, tr1) =>
      match h e with
      | Some k =>
          match k b1 with
          | (r, b2, tr2) => (r, b2, tr1 ++ tr2)
          end
      | None => (Raised e, b1, tr1)
      end
  end.

(** [except Exception: pass] *)
Definition except_Exception_pass (e : Exn) : option (M unit) := Some (ret tt).

(** A transport call: logged, and answered by the environment. *)
Definition transport {A} (c : Call) (answer : Outcome A) : M A :=
  fun b => (answer, b, [c]).

(** [asyncio.sleep] *)
Definition asyncio_sleep (seconds : Z) : M unit :=
  fun b => (Returned tt, b, [Sleep seconds]).

Definition get_bot : M Bot := fun b => (Returned b, b, []).
Definition put_bot (b' : Bot) : M unit := fun _ => (Returned tt, b', []).

(** ** Dictionary operations *)

(** [self.msg_times[uid]] on a [defaultdict(lambda: deque())]: a missing key
    is inserted with an empty deque, and the deque stored in the dictionary
    is the one the handler then mutates. *)
Definition msg_times_getitem (uid : Z) : M (list Z) :=
  b <- get_bot ;;
  match msg_times b !! uid with
  | Some dq => ret dq
  | None =>
      put_bot {| msg_times := <[uid := []]> (msg_times b);
                 warnings := warnings b;
                 last_reminder := last_reminder b |} ;;
      ret []
  end.

(** A mutation of the deque held under [uid]. *)
Definition dq_set (uid : Z) (dq : list Z) : M unit :=
  b <- get_bot ;;
  put_bot {| msg_times := <[uid := dq]> (msg_times b);
             warnings := warnings b;
             last_reminder := last_reminder b |}.

(** [while dq and dq[0] < cutoff: dq.popleft()] *)
Fixpoint popleft_while (cutoff : Z) (dq : list Z) : list Z :=
  match dq with
  | [] => []
  | t :: rest => if t <? cutoff then popleft_while cutoff rest else dq
  end.

(** [self.warnings[uid]] on a [defaultdict(int)] *)
Definition warnings_getitem (uid : Z) : M Z :=
  b <- get_bot ;;
  match warnings b !! uid with
  | Some n => ret n
  | None =>
      put_bot {| msg_times := msg_times b;
                 warnings := <[uid := 0]> (warnings b);
                 last_reminder := last_reminder b |} ;;
      ret 0
  end.

Definition warnings_setitem (uid : Z) (n : Z) : M unit :=
  b <- get_bot ;;
  put_bot {| msg_times := msg_times b;
             warnings := <[uid := n]> (warnings b);
             last_reminder := last_reminder b |}.

(** [self.last_reminder.get(uid)] *)
Definition last_reminder_get (uid : Z) : M (option Z) :=
  b <- get_bot ;; ret (last_reminder b !! uid).

Definition last_reminder_setitem (uid : Z) (t : Z) : M unit :=
  b <- get_bot ;;
  put_bot {| msg_times := msg_times b;
             warnings := warnings b;
             last_reminder := <[uid := t]> (last_reminder b) |}.

(** ** Strings *)

Definition nl : string := String (Ascii.ascii_of_nat 10) EmptyString.

(** Python's truth value of a [str] and of an optional [str]. *)
Definition truthy (s : string) : bool :=
  match s with EmptyString => false | _ => true end.

Definition truthy_opt (s : option string) : bool :=
  match s with Some s' => truthy s' | None => false end.

(** [s[1:]] *)
Definition str_tail (s : string) : string :=
  match s with EmptyString => EmptyString | String _ r => r end.

(** [str(n)] for an [int] *)
Definition str_of_int (n : Z) : string := pretty n.

(** ** The environment of one invocation of [on_group_message] *)

Record Env := {
  bot_id : Z;                       (* context.bot.id *)
  now_received : Z;                 (* datetime.now(tz=TZ), line 135 *)
  now_checked : Z;                  (* datetime.now(tz=TZ), line 167 *)
  now_marked : Z;                   (* datetime.now(tz=TZ), line 170 *)
  r_delete : Outcome unit;          (* update.message.delete() *)
  r_member : Outcome string;        (* get_chat_member(..).status *)
  r_send : Outcome unit;            (* context.bot.send_message(..) *)
  r_notice_delete : Outcome unit    (* msg.delete() of the notice *)
}.

(** ** The coroutines of [ChannelEnforcementBot] *)

(** main.py, lines 68-75 *)
Definition is_user_in_channel (uid : Z) (env : Env) : M bool :=
  try_except
    (status <- transport (GetChatMember (ChatName CHANNEL_USERNAME) uid) (r_member env) ;;
     ret (bool_decide (status ∈ ["member"; "administrator"; "creator"; "owner"])))
    (fun e => match e with
              | BadRequest | Forbidden => Some (ret false)
              | OtherException => None
              end).

Definition join_button : string * string :=
  ("✅ بەژداری دەکەم", "https://t.me/" +:+ str_tail CHANNEL_USERNAME).

Definition join_reminder_text (user_name : string) : string :=
  "👋 بەخێربێی بەڕێز " +:+ user_name +:+ nl +:+
  "تکایە بەژداری بکە لە کەناڵەکەمان بۆ ئەوەی بتوانی نامە بنێری لەم گرووپە" +:+ nl +:+
  "تەنها پەنجە بنێ بە دووگمەی **بەژداری دەکەم** لە خوارەوە" +:+ nl +:+
  "🙏 سوپاس بۆ تێگەیشتنتان".

(** main.py, lines 77-101 *)
Definition send_join_reminder (chat_id : Z) (user_name : string) (uid : Z)
    (env : Env) : M unit :=
  try_except
    (transport (SendMessage chat_id (join_reminder_text user_name)
                  (Some join_button) (Some "Markdown")) (r_send env) ;;
     asyncio_sleep WARNING_AUTO_DELETE_SEC ;;
     try_except (transport (DeleteMessage SentNotice) (r_notice_delete env))
                except_Exception_pass)
    except_Exception_pass.

Definition spam_warning_text (user_name : string) (count : Z) : string :=
  "بەڕێز " +:+ user_name +:+ nl +:+
  "پەیامێکی نایاسایی نارد" +:+ nl +:+
  "ژمارەی ئاگاداریەکان " +:+ str_of_int count.

(** [user.first_name or user.username or str(user.id)] *)
Definition warning_name (user : User) : string :=
  if truthy (first_name user) then first_name user
  else if truthy_opt (username user) then default "" (username user)
  else str_of_int (user_id user).

(** main.py, lines 103-120 *)
Definition send_spam_warning (chat_id : Z) (user : User) (count : Z)
    (env : Env) : M unit :=
  try_except
    (transport (SendMessage chat_id (spam_warning_text (warning_name user) count)
                  None None) (r_send env) ;;
     asyncio_sleep WARNING_AUTO_DELETE_SEC ;;
     try_except (transport (DeleteMessage SentNotice) (r_notice_delete env))
                except_Exception_pass)
    except_Exception_pass.

(** [f"@{user.username}" if user.username else user.first_name or str(user.id)] *)
Definition display_name (user : User) : string :=
  if truthy_opt (username user) then "@" +:+ default "" (username user)
  else if truthy (first_name user) then first_name user
  else str_of_int (user_id user).

(** [not last or (datetime.now(tz=TZ) - last) > timedelta(minutes=2)];
    a [datetime] is always true, so [not last] is [last is None]. *)
Definition reminder_due (last : option Z) (now : Z) : bool :=
  match last with
  | None => true
  | Some t => timedelta_minutes 2 <? now - t
  end.

(** main.py, lines 134-142: the time stamp of this message is appended to
    the sender's deque, and the old time stamps are popped off its left
    end.  The deque is the object stored in [msg_times], so both mutations
    are mutations of the dictionary's value; the result is the deque as the
    test of line 144 sees it. *)
Definition record_message (uid : Z) (now : Z) : M (list Z) :=
  dq <- msg_times_getitem uid ;;
  dq_set uid (dq ++ [now]) ;;
  let cutoff := now - timedelta_seconds SPAM_WINDOW_SEC in
  dq_set uid (popleft_while cutoff (dq ++ [now])) ;;
  ret (popleft_while cutoff (dq ++ [now])).

(** main.py, lines 145-154: the branch of a message found to be spam. *)
Definition warn_spammer (update : Update) (env : Env) : M unit :=
  let user := effective_user update in
  try_except (transport (DeleteMessage IncomingMessage) (r_delete env))
             except_Exception_pass ;;
  n <- warnings_getitem (user_id user) ;;
  warnings_setitem (user_id user) (n + 1) ;;
  count <- warnings_getitem (user_id user) ;;
  send_spam_warning (effective_chat_id update) user count env ;;
  ret tt.

(** main.py, lines 156-174: the force-join check. *)
Definition force_join_check (update : Update) (env : Env) : M unit :=
  let user := effective_user update in
  in_channel <- is_user_in_channel (user_id user) env ;;
  if negb in_channel then
    try_except (transport (DeleteMessage IncomingMessage) (r_delete env))
               except_Exception_pass ;;
    last <- last_reminder_get (user_id user) ;;
    if reminder_due last (now_checked env) then
      send_join_reminder (effective_chat_id update) (display_name user)
        (user_id user) env ;;
      last_reminder_setitem (user_id user) (now_marked env) ;;
      ret tt
    else ret tt
  else ret tt.

(** main.py, lines 122-174 *)
Definition on_group_message (update : Update) (env : Env) : M unit :=
  if negb (has_message update) then ret tt else
  let user := effective_user update in
  if user_id user =? bot_id env then ret tt else
  dq <- record_message (user_id user) (now_received env) ;;
  if SPAM_MAX_MSG <? Z.of_nat (length dq) then warn_spammer update env
  else force_join_check update env.

(** The environment of one invocation of [cmd_reset_warnings]. *)
Record CmdEnv := {
  c_member : Outcome string;        (* get_chat_member(chat, user).status *)
  c_reply_denied : Outcome unit;    (* reply_text of the rejection *)
  c_reply_done : Outcome unit       (* reply_text of the confirmation *)
}.

Definition denied_text : string :=
  "تەنها بەڕێوەبەر دەتوانێت ئەم فرمانە بەکاربێنێت.".
Definition done_text : string :=
  "⚙️ هەموو ئاگاداریەکان سڕدرانەوە.".

(** [self.warnings.clear()] *)
Definition warnings_clear : M unit :=
  b <- get_bot ;;
  put_bot {| msg_times := msg_times b;
             warnings := ∅;
             last_reminder := last_reminder b |}.

Definition msg_times_clear : M unit :=
  b <- get_bot ;;
  put_bot {| msg_times := ∅;
             warnings := warnings b;
             last_reminder := last_reminder b |}.

Definition last_reminder_clear : M unit :=
  b <- get_bot ;;
  put_bot {| msg_times := msg_times b;
             warnings := warnings b;
             last_reminder := ∅ |}.

(** main.py, lines 183-194.  The [return] inside the [try] leaves the
    coroutine: the body yields [true] when it returned, [false] when it
    fell through, and the [except Exception: pass] turns a raise into a
    fall through. *)
Definition cmd_reset_warnings (update : Update) (env : CmdEnv) : M unit :=
  returned <-
    try_except
      (status <- transport (GetChatMember (ChatId (effective_chat_id update))
                              (user_id (effective_user update))) (c_member env) ;;
       if negb (bool_decide (status ∈ ["administrator"; "creator"])) then
         transport (ReplyText denied_text) (c_reply_denied env) ;;
         ret true
       else ret false)
      (fun _ => Some (ret false)) ;;
  if (returned : bool) then ret tt else
  warnings_clear ;;
  transport (ReplyText done_text) (c_reply_done env).

(** main.py, lines 197-202 *)
Definition reset_warnings_daily : M unit :=
  warnings_clear ;;
  msg_times_clear ;;
  last_reminder_clear.

(** main.py, lines 204-209: the one job handed to the job queue, with the
    wall-clock time [dtime(hour=0, minute=0, tzinfo=TZ)] it runs at daily. *)
Record dtime := { hour : Z; minute : Z; tzinfo : string }.

Definition midnight : dtime := {| hour := 0; minute := 0; tzinfo := TZ |}.

Definition run_daily_jobs : list (M unit * dtime) :=
  [(reset_warnings_daily, midnight)].

(** ** The bot as a state machine over the events it is dispatched *)

Inductive Event :=
| GroupMessage (update : Update) (env : Env)
| ResetCommand (update : Update) (env : CmdEnv)
| DailyJob.

Definition handler (ev : Event) : M unit :=
  match ev with
  | GroupMessage update env => on_group_message update env
  | ResetCommand update env => cmd_reset_warnings update env
  | DailyJob => reset_warnings_daily
  end.

Definition state_after {A} (m : M A) (b : Bot) : Bot := (m b).1.2.
Definition calls_of {A} (m : M A) (b : Bot) : list Call := (m b).2.
Definition outcome_of {A} (m : M A) (b : Bot) : Outcome A := (m b).1.1.

Definition step (b : Bot) (ev : Event) : Bot := state_after (handler ev) b.

Definition run (evs : list Event) (b : Bot) : Bot := fold_left step evs b.

(** ** Observations on the bot object *)

(** The deque of a user; a missing key reads as the empty deque. *)
Definition window (b : Bot) (uid : Z) : list Z := default [] (msg_times b !! uid).

(** The warning count of a user; a missing key reads as zero. *)
Definition warning_count (b : Bot) (uid : Z) : Z := default 0 (warnings b !! uid).

(** The three ways a handler writes to the bot object. *)
Definition put_window (uid : Z) (dq : list Z) (b : Bot) : Bot :=
  {| msg_times := <[uid := dq]> (msg_times b);
     warnings := warnings b;
     last_reminder := last_reminder b |}.

Definition put_warning (uid : Z) (n : Z) (b : Bot) : Bot :=
  {| msg_times := msg_times b;
     warnings := <[uid := n]> (warnings b);
     last_reminder := last_reminder b |}.

Definition put_reminder (uid : Z) (t : Z) (b : Bot) : Bot :=
  {| msg_times := msg_times b;
     warnings := warnings b;
     last_reminder := <[uid := t]> (last_reminder b) |}.

(** The deque of [uid] as line 144 finds it when the message is handled at
    [now] from the bot object [b]. *)
Definition new_window (b : Bot) (uid now : Z) : list Z :=
  popleft_while (now - timedelta_seconds SPAM_WINDOW_SEC) (window b uid ++ [now]).

(** What the membership check answers in an environment. *)
Definition in_channel (env : Env) (uid : Z) : Outcome bool :=
  outcome_of (is_user_in_channel uid env) init.

(** The calls that follow a notice that was sent: it is removed after
    [WARNING_AUTO_DELETE_SEC] seconds.  Nothing follows a failed send. *)
Definition notice_calls (env : Env) : list Call :=
  match r_send env with
  | Returned _ => [Sleep WARNING_AUTO_DELETE_SEC; DeleteMessage SentNotice]
  | Raised _ => []
  end.

(** An update that passes the two guards of lines 124-132. *)
Definition handled (update : Update) (env : Env) : Prop :=
  has_message update = true /\ user_id (effective_user update) <> bot_id env.

Definition is_membership_check (c : Call) : bool :=
  match c with GetChatMember _ _ => true | _ => false end.

(** The calls of the spam branch (lines 145-154) when the warning count
    it reads back is [count]. *)
Definition spam_calls (update : Update) (env : Env) (count : Z) : list Call :=
  DeleteMessage IncomingMessage
    :: SendMessage (effective_chat_id update)
         (spam_warning_text (warning_name (effective_user update)) count) None None
    :: notice_calls env.

(** The membership look-up of the force-join check. *)
Definition membership_call (update : Update) : Call :=
  GetChatMember (ChatName CHANNEL_USERNAME) (user_id (effective_user update)).

(** What an observer of the bot sees of a spam classification: the
    sender's warning count is bumped and the calls are those of the spam
    branch, with the bumped count in the notice. *)
Definition classified_spam (update : Update) (env : Env) (b : Bot) : Prop :=
  let uid := user_id (effective_user update) in
  warnings (state_after (on_group_message update env) b)
    = <[uid := warning_count b uid + 1]> (warnings b) /\
  calls_of (on_group_message update env) b
    = spam_calls update env (warning_count b uid + 1).

(** What an observer sees of a message the rate check lets through: no
    warning is counted, and the handler goes on to look up the sender's
    membership. *)
Definition passed_rate_check (update : Update) (env : Env) (b : Bot) : Prop :=
  warnings (state_after (on_group_message update env) b) = warnings b /\
  head (calls_of (on_group_message update env) b) = Some (membership_call update).

(** The join reminder of lines 83-94, as sent for the sender of [update]. *)
Definition join_reminder_call (update : Update) : Call :=
  SendMessage (effective_chat_id update)
    (join_reminder_text (display_name (effective_user update)))
    (Some join_button) (Some "Markdown").

(** The same environment with another answer of the membership oracle. *)
Definition with_member (env : Env) (answer : Outcome string) : Env :=
  {| bot_id := bot_id env;
     now_received := now_received env;
     now_checked := now_checked env;
     now_marked := now_marked env;
     r_delete := r_delete env;
     r_member := answer;
     r_send := r_send env;
     r_notice_delete := r_notice_delete env |}.

(** The two explicit resets: the [resetwarnings] command and the daily job. *)
Definition is_reset (ev : Event) : Prop :=
  match ev with
  | GroupMessage _ _ => False
  | ResetCommand _ _ => True
  | DailyJob => True
  end.

(** ** Sample inputs *)

Definition sample_user : User :=
  {| user_id := 7; first_name := "Al"; username := None |}.

(** The bot's own account, as [sample_env] has it. *)
Definition bot_user : User :=
  {| user_id := 1; first_name := "Enforcer"; username := Some "enforcer_bot" |}.

Definition other_user : User :=
  {| user_id := 8; first_name := ""; username := Some "bo" |}.

Definition message_of (user : User) : Update :=
  {| has_message := true; effective_user := user; effective_chat_id := -100 |}.

(** An environment in which the bot's id is 1, the handler starts at
    [now], the notice's minute of sleep has passed when the reminder is
    marked, the membership look-up answers [member], and every other call
    succeeds. *)
Definition sample_env (now : Z) (member : Outcome string) : Env :=
  {| bot_id := 1;
     now_received := now;
     now_checked := now;
     now_marked := now + timedelta_seconds WARNING_AUTO_DELETE_SEC;
     r_delete := Returned tt;
     r_member := member;
     r_send := Returned tt;
     r_notice_delete := Returned tt |}.

Definition message_at (user : User) (sec : Z) : Event :=
  GroupMessage (message_of user) (sample_env (timedelta_seconds sec) (Returned "member")).

(** Five messages of the sample user, one per second. *)
Definition five_messages : Bot :=
  run (map (message_at sample_user) [0; 1; 2; 3; 4]) init.

(** Six messages of the sample user within six seconds: the sixth was
    classified spam, and the user has one warning. *)
Definition six_messages : Bot :=
  run (map (message_at sample_user) [0; 1; 2; 3; 4; 5]) init.

(** An environment of [cmd_reset_warnings] in which the caller is a plain
    member of the chat and the reply with the rejection fails. *)
Definition member_reply_fails : CmdEnv :=
  {| c_member := Returned "member";
     c_reply_denied := Raised OtherException;
     c_reply_done := Returned tt |}.

(** An environment of [cmd_reset_warnings] in which the look-up of the
    caller's status fails. *)
Definition lookup_fails : CmdEnv :=
  {| c_member := Raised OtherException;
     c_reply_denied := Returned tt;
     c_reply_done := Returned tt |}.

(** The membership check is fail-closed at [env] when a raise of the oracle
    makes it answer [False]. *)
Definition fails_closed (uid : Z) (env : Env) (b : Bot) : Prop :=
  (exists e, r_member env = Raised e) ->
  outcome_of (is_user_in_channel uid env) b = Returned false.

(** What C8 says of a user who has sent nothing for [SPAM_WINDOW_SEC]
    seconds, when the clock reads [now]: the stored deque is empty, and no
    stored time stamp is older than [now - SPAM_WINDOW_SEC]. *)
Definition idle_window_purged (b : Bot) (uid now : Z) : Prop :=
  window b uid = [] /\
  Forall (fun t => now - timedelta_seconds SPAM_WINDOW_SEC <= t) (window b uid).

(** The deques hold their time stamps in the order of the clock, and none
    is later than [t]. *)
Definition chronological (b : Bot) (t : Z) : Prop :=
  forall uid, StronglySorted Z.le (window b uid) /\
              Forall (fun x => x <= t) (window b uid).

(** The entries of the stored deque that the purge at [now] leaves. *)
Definition in_window_entries (b : Bot) (uid now : Z) : list Z :=
  popleft_while (now - timedelta_seconds SPAM_WINDOW_SEC) (window b uid).

(** ** Further observations *)

(** Two environments that give the handler the same bot id, the same clock
    readings and the same answer of the membership oracle; they may differ
    in what the deletions and the sending of a notice answer. *)
Definition same_inputs (env env' : Env) : Prop :=
  bot_id env = bot_id env' /\
  now_received env = now_received env' /\
  now_checked env = now_checked env' /\
  now_marked env = now_marked env' /\
  r_member env = r_member env'.

(** The calls that remove a notice again: the sleep and the deletion. *)
Definition is_notice_cleanup (c : Call) : bool :=
  match c with
  | Sleep _ => true
  | DeleteMessage SentNotice => true
  | _ => false
  end.

(** The clock readings of the messages of a run do not go backwards,
    starting from [t]. *)
Fixpoint clock_runs_forward (t : Z) (evs : list Event) : Prop :=
  match evs with
  | [] => True
  | GroupMessage _ env :: rest =>
      t <= now_received env /\ clock_runs_forward (now_received env) rest
  | _ :: rest => clock_runs_forward t rest
  end.

(** The clock reading of the last message of a run, [t] if it has none. *)
Fixpoint last_reading (t : Z) (evs : list Event) : Z :=
  match evs with
  | [] => t
  | GroupMessage _ env :: rest => last_reading (now_received env) rest
  | _ :: rest => last_reading t rest
  end.

(** The number of group messages of [uid] among the events of a run. *)
Fixpoint messages_from (uid : Z) (evs : list Event) : Z :=
  match evs with
  | [] => 0
  | GroupMessage update _ :: rest =>
      (if user_id (effective_user update) =? uid then 1 else 0) + messages_from uid rest
  | _ :: rest => messages_from uid rest
  end.

(** An environment of [cmd_reset_warnings] in which the caller has the
    status [status] and both replies are delivered. *)
Definition caller_env (status : string) : CmdEnv :=
  {| c_member := Returned status;
     c_reply_denied := Returned tt;
     c_reply_done := Returned tt |}.

(** The sample environment with a send that fails. *)
Definition send_fails (env : Env) : Env :=
  {| bot_id := bot_id env;
     now_received := now_received env;
     now_checked := now_checked env;
     now_marked := now_marked env;
     r_delete := Raised BadRequest;
     r_member := r_member env;
     r_send := Raised OtherException;
     r_notice_delete := Raised OtherException |}.

(** * Running the coroutines *)

(** One step through a [bind] whose first computation has a run lemma. *)
Ltac run_bind lem := unfold bind at 1; rewrite lem; cbv beta iota.

(** A string that is not in a list of string literals. *)
Ltac not_in_list :=
  let H := fresh in
  intros H; repeat (apply elem_of_cons in H as [H|H]; [discriminate|]);
  by apply elem_of_nil in H.

Section Running.

Lemma bind_returned {A B} (m : M A) (k : A -> M B) b a b1 tr1 :
  m b = (Returned a, b1, tr1) ->
  bind m k b = (outcome_of (k a) b1, state_after (k a) b1, tr1 ++ calls_of (k a) b1).
Proof.
  intros E. unfold bind, outcome_of, state_after, calls_of. rewrite E.
  by destruct (k a b1) as [[r b2] tr2].
Qed.

Lemma bind_raised {A B} (m : M A) (k : A -> M B) b e b1 tr1 :
  m b = (Raised e, b1, tr1) -> bind m k b = (Raised e, b1, tr1).
Proof. intros E. unfold bind. by rewrite E. Qed.

Lemma run_eq {A} (m : M A) b r b' tr :
  m b = (r, b', tr) ->
  outcome_of m b = r /\ state_after m b = b' /\ calls_of m b = tr.
Proof. intros E. unfold outcome_of, state_after, calls_of. by rewrite E. Qed.

Lemma last_reminder_get_run uid b :
  last_reminder_get uid b = (Returned (last_reminder b !! uid), b, []).
Proof. reflexivity. Qed.

Lemma last_reminder_setitem_run uid t b :
  last_reminder_setitem uid t b = (Returned tt, put_reminder uid t b, []).
Proof. reflexivity. Qed.

Lemma record_message_run uid now b :
  record_message uid now b =
    (Returned (new_window b uid now), put_window uid (new_window b uid now) b, []).
Proof.
  unfold record_message, new_window, window, put_window, msg_times_getitem,
    dq_set, bind, get_bot, put_bot, ret.
  destruct (msg_times b !! uid) as [dq|]; simpl; by rewrite !insert_insert_eq.
Qed.

Lemma send_spam_warning_run chat_id user count env b :
  send_spam_warning chat_id user count env b =
    (Returned tt, b,
     SendMessage chat_id (spam_warning_text (warning_name user) count) None None
       :: notice_calls env).
Proof.
  unfold send_spam_warning, notice_calls, try_except, bind, transport,
    asyncio_sleep, except_Exception_pass, ret.
  destruct (r_send env) as [[]|e]; [|done].
  by destruct (r_notice_delete env) as [[]|e].
Qed.

Lemma send_join_reminder_run chat_id name uid env b :
  send_join_reminder chat_id name uid env b =
    (Returned tt, b,
     SendMessage chat_id (join_reminder_text name) (Some join_button) (Some "Markdown")
       :: notice_calls env).
Proof.
  unfold send_join_reminder, notice_calls, try_except, bind, transport,
    asyncio_sleep, except_Exception_pass, ret.
  destruct (r_send env) as [[]|e]; [|done].
  by destruct (r_notice_delete env) as [[]|e].
Qed.

Lemma delete_incoming_run env b :
  try_except (transport (DeleteMessage IncomingMessage) (r_delete env))
    except_Exception_pass b = (Returned tt, b, [DeleteMessage IncomingMessage]).
Proof.
  unfold try_except, transport, except_Exception_pass, ret.
  by destruct (r_delete env) as [[]|e].
Qed.

Lemma warn_spammer_run update env b :
  let uid := user_id (effective_user update) in
  let count := warning_count b uid + 1 in
  warn_spammer update env b =
    (Returned tt, put_warning uid count b,
     DeleteMessage IncomingMessage
       :: SendMessage (effective_chat_id update)
            (spam_warning_text (warning_name (effective_user update)) count) None None
       :: notice_calls env).
Proof.
  intros uid count. unfold warn_spammer.
  rewrite (bind_returned _ _ _ _ _ _ (delete_incoming_run env b)).
  unfold outcome_of, state_after, calls_of, count, warning_count, put_warning,
    warnings_getitem, warnings_setitem, bind, get_bot, put_bot, ret.
  fold uid.
  destruct (warnings b !! uid) as [n|] eqn:E; simpl.
  - rewrite lookup_insert_eq. simpl. rewrite send_spam_warning_run. simpl.
    by rewrite app_nil_r.
  - rewrite lookup_insert_eq. simpl. rewrite send_spam_warning_run. simpl.
    by rewrite app_nil_r, insert_insert_eq.
Qed.

Lemma is_user_in_channel_run uid env b :
  is_user_in_channel uid env b =
    (in_channel env uid, b, [GetChatMember (ChatName CHANNEL_USERNAME) uid]).
Proof.
  unfold in_channel, outcome_of, is_user_in_channel, try_except, bind,
    transport, ret.
  destruct (r_member env) as [s|[]]; done.
Qed.

Lemma force_join_check_run update env b :
  let uid := user_id (effective_user update) in
  let check := GetChatMember (ChatName CHANNEL_USERNAME) uid in
  force_join_check update env b =
    match in_channel env uid with
    | Raised e => (Raised e, b, [check])
    | Returned true => (Returned tt, b, [check])
    | Returned false =>
        if reminder_due (last_reminder b !! uid) (now_checked env) then
          (Returned tt, put_reminder uid (now_marked env) b,
           check :: DeleteMessage IncomingMessage
             :: SendMessage (effective_chat_id update)
                  (join_reminder_text (display_name (effective_user update)))
                  (Some join_button) (Some "Markdown")
             :: notice_calls env)
        else (Returned tt, b, [check; DeleteMessage IncomingMessage])
    end.
Proof.
  intros uid check. unfold force_join_check. fold uid.
  run_bind is_user_in_channel_run. fold check.
  destruct (in_channel env uid) as [[]|e]; [done| |done].
  change (negb false) with true. cbv beta iota.
  run_bind delete_incoming_run.
  run_bind last_reminder_get_run.
  destruct (reminder_due (last_reminder b !! uid) (now_checked env)); [|done].
  run_bind send_join_reminder_run.
  run_bind last_reminder_setitem_run.
  unfold ret. simpl. by rewrite app_nil_r.
Qed.

(** The handler, unfolded along its guards. *)
Lemma on_group_message_ignored update env b :
  ~ handled update env -> on_group_message update env b = (Returned tt, b, []).
Proof.
  intros H. unfold on_group_message, handled in *.
  destruct (has_message update); [|done]. simpl.
  destruct (Z.eqb_spec (user_id (effective_user update)) (bot_id env)); [done|].
  by destruct H.
Qed.

Lemma on_group_message_run update env b :
  handled update env ->
  let uid := user_id (effective_user update) in
  let w := new_window b uid (now_received env) in
  let k := if SPAM_MAX_MSG <? Z.of_nat (length w) then warn_spammer update env
           else force_join_check update env in
  on_group_message update env b =
    (outcome_of k (put_window uid w b), state_after k (put_window uid w b),
     calls_of k (put_window uid w b)).
Proof.
  intros [Hm Hu] uid w k. unfold on_group_message. rewrite Hm. simpl.
  apply Z.eqb_neq in Hu. rewrite Hu.
  by rewrite (bind_returned _ _ _ _ _ _ (record_message_run uid _ b)).
Qed.

End Running.

(** * The deque of time stamps *)

Section Window.

Implicit Types (dq : list Z) (cutoff now t : Z).

Lemma popleft_while_keeps cutoff dq t :
  head dq = Some t -> cutoff <= t -> popleft_while cutoff dq = dq.
Proof.
  destruct dq as [|t' rest]; [done|]. simpl. intros [= ->] H.
  by rewrite (proj2 (Z.ltb_ge t cutoff) H).
Qed.

Lemma popleft_while_all_old cutoff dq :
  Forall (fun t => t < cutoff) dq -> popleft_while cutoff dq = [].
Proof.
  induction 1 as [|t rest Ht _ IH]; [done|]. simpl.
  by rewrite (proj2 (Z.ltb_lt t cutoff) Ht).
Qed.

(** The time stamp just appended is never popped: the loop stops at it
    at the latest. *)
Lemma popleft_while_snoc cutoff dq now :
  cutoff <= now ->
  popleft_while cutoff (dq ++ [now]) = popleft_while cutoff dq ++ [now].
Proof.
  intros H. induction dq as [|t rest IH]; simpl.
  - by rewrite (proj2 (Z.ltb_ge now cutoff) H).
  - by destruct (t <? cutoff).
Qed.

Lemma popleft_while_suffix cutoff dq : popleft_while cutoff dq `suffix_of` dq.
Proof.
  induction dq as [|t rest IH]; simpl; [done|].
  destruct (t <? cutoff); [by apply suffix_cons_r | done].
Qed.

Lemma popleft_while_length cutoff dq :
  (length (popleft_while cutoff dq) <= length dq)%nat.
Proof. apply suffix_length, popleft_while_suffix. Qed.

Lemma popleft_while_sorted cutoff dq :
  StronglySorted Z.le dq -> StronglySorted Z.le (popleft_while cutoff dq).
Proof.
  induction 1 as [|t rest Hrest IH Ht]; simpl; [constructor|].
  destruct (t <? cutoff); [done | by constructor].
Qed.

(** On a chronological deque the loop removes every old time stamp. *)
Lemma popleft_while_recent cutoff dq :
  StronglySorted Z.le dq -> Forall (fun t => cutoff <= t) (popleft_while cutoff dq).
Proof.
  induction 1 as [|t rest Hrest IH Ht]; simpl; [constructor|].
  destruct (Z.ltb_spec t cutoff) as [Hlt|Hge]; [done|].
  constructor; [done|].
  eapply Forall_impl; [exact Ht|]. simpl. lia.
Qed.

Lemma sorted_snoc dq now :
  StronglySorted Z.le dq -> Forall (fun t => t <= now) dq ->
  StronglySorted Z.le (dq ++ [now]).
Proof.
  induction 1 as [|t rest Hrest IH Ht]; simpl; intros Hle.
  - repeat constructor.
  - apply Forall_cons in Hle as [Htn Hle]. constructor; [by apply IH|].
    apply Forall_app. split; [done | by repeat constructor].
Qed.

Lemma window_zero : 0 <= timedelta_seconds SPAM_WINDOW_SEC.
Proof. unfold timedelta_seconds, SPAM_WINDOW_SEC. lia. Qed.

Lemma new_window_snoc b uid now :
  new_window b uid now =
    popleft_while (now - timedelta_seconds SPAM_WINDOW_SEC) (window b uid) ++ [now].
Proof.
  unfold new_window. apply popleft_while_snoc. pose proof window_zero. lia.
Qed.

Lemma new_window_last b uid now : last (new_window b uid now) = Some now.
Proof. rewrite new_window_snoc. apply last_snoc. Qed.

Lemma new_window_length b uid now :
  (1 <= length (new_window b uid now) <= length (window b uid) + 1)%nat.
Proof.
  rewrite new_window_snoc, length_app. simpl.
  pose proof (popleft_while_length
    (now - timedelta_seconds SPAM_WINDOW_SEC) (window b uid)). lia.
Qed.

Lemma window_put_window b uid dq : window (put_window uid dq b) uid = dq.
Proof. unfold window, put_window. simpl. by rewrite lookup_insert_eq. Qed.

Lemma window_put_window_ne b uid v dq :
  uid <> v -> window (put_window uid dq b) v = window b v.
Proof. intros H. unfold window, put_window. simpl. by rewrite lookup_insert_ne. Qed.

Lemma warning_count_put_warning b uid n :
  warning_count (put_warning uid n b) uid = n.
Proof. unfold warning_count, put_warning. simpl. by rewrite lookup_insert_eq. Qed.

Lemma warning_count_put_warning_ne b uid v n :
  uid <> v -> warning_count (put_warning uid n b) v = warning_count b v.
Proof.
  intros H. unfold warning_count, put_warning. simpl. by rewrite lookup_insert_ne.
Qed.

End Window.

(** * The handler by cases *)

Section Cases.

Variables (update : Update) (env : Env) (b : Bot).

Let uid := user_id (effective_user update).
Let w := new_window b uid (now_received env).

Lemma on_group_message_spam :
  handled update env -> SPAM_MAX_MSG < Z.of_nat (length w) ->
  on_group_message update env b =
    (Returned tt,
     put_warning uid (warning_count b uid + 1) (put_window uid w b),
     spam_calls update env (warning_count b uid + 1)).
Proof.
  intros H Hs. rewrite (on_group_message_run _ _ _ H). fold uid w.
  apply Z.ltb_lt in Hs. rewrite Hs.
  unfold outcome_of, state_after, calls_of. by rewrite warn_spammer_run.
Qed.

Lemma on_group_message_pass :
  handled update env -> Z.of_nat (length w) <= SPAM_MAX_MSG ->
  on_group_message update env b = force_join_check update env (put_window uid w b).
Proof.
  intros H Hs. rewrite (on_group_message_run _ _ _ H). fold uid w.
  apply Z.ltb_ge in Hs. rewrite Hs.
  unfold outcome_of, state_after, calls_of.
  by destruct (force_join_check update env (put_window uid w b)) as [[??]?].
Qed.

End Cases.

(** * What the force-join check leaves alone *)

Section Frames.

Variables (update : Update) (env : Env) (b : Bot).

Lemma force_join_check_msg_times :
  msg_times (state_after (force_join_check update env) b) = msg_times b.
Proof.
  unfold state_after. rewrite force_join_check_run.
  destruct (in_channel env _) as [[]|e]; try done.
  by destruct (reminder_due _ _).
Qed.

Lemma force_join_check_warnings :
  warnings (state_after (force_join_check update env) b) = warnings b.
Proof.
  unfold state_after. rewrite force_join_check_run.
  destruct (in_channel env _) as [[]|e]; try done.
  by destruct (reminder_due _ _).
Qed.

Lemma force_join_check_head :
  head (calls_of (force_join_check update env) b) = Some (membership_call update).
Proof.
  unfold calls_of. rewrite force_join_check_run.
  destruct (in_channel env _) as [[]|e]; try done.
  by destruct (reminder_due _ _).
Qed.

Lemma force_join_check_other_reminders v :
  v <> user_id (effective_user update) ->
  last_reminder (state_after (force_join_check update env) b) !! v
    = last_reminder b !! v.
Proof.
  intros Hv. unfold state_after. rewrite force_join_check_run.
  destruct (in_channel env _) as [[]|e]; try done.
  destruct (reminder_due _ _); [|done]. simpl. by rewrite lookup_insert_ne.
Qed.

End Frames.

(** * The anti-spam threshold *)

Section Threshold.

Variables (update : Update) (env : Env) (b : Bot).

Let uid := user_id (effective_user update).
Let w := new_window b uid (now_received env).

Lemma spam_not_passed : classified_spam update env b -> ~ passed_rate_check update env b.
Proof. intros [_ Hc] [_ Hh]. rewrite Hc in Hh. discriminate. Qed.

Lemma classified_spam_iff :
  handled update env ->
  classified_spam update env b <-> SPAM_MAX_MSG < Z.of_nat (length w).
Proof.
  intros H. split.
  - intros Hs. destruct (Z.lt_ge_cases SPAM_MAX_MSG (Z.of_nat (length w)))
      as [|Hle]; [done|].
    destruct Hs as [_ Hc].
    unfold calls_of in Hc.
    rewrite on_group_message_pass in Hc by done.
    pose proof (force_join_check_head update env (put_window uid w b)) as Hh.
    unfold calls_of in Hh. fold uid w in Hc. rewrite Hc in Hh. discriminate.
  - intros Hs. unfold classified_spam, state_after, calls_of.
    by rewrite on_group_message_spam.
Qed.

Lemma passed_rate_check_iff :
  handled update env ->
  passed_rate_check update env b <-> Z.of_nat (length w) <= SPAM_MAX_MSG.
Proof.
  intros H. split.
  - intros Hp. destruct (Z.lt_ge_cases SPAM_MAX_MSG (Z.of_nat (length w)))
      as [Hlt|]; [|done].
    apply classified_spam_iff in Hlt; [|done].
    by apply spam_not_passed in Hlt.
  - intros Hle. unfold passed_rate_check, state_after, calls_of.
    rewrite on_group_message_pass by done. split.
    + apply (force_join_check_warnings update env (put_window uid w b)).
    + apply force_join_check_head.
Qed.

Lemma on_group_message_window :
  handled update env ->
  window (state_after (on_group_message update env) b) uid = w.
Proof.
  intros H. destruct (Z.lt_ge_cases SPAM_MAX_MSG (Z.of_nat (length w))) as [Hs|Hs].
  - unfold state_after. rewrite on_group_message_spam by done.
    apply window_put_window.
  - unfold state_after. rewrite on_group_message_pass by done.
    change (window (state_after (force_join_check update env)
                      (put_window uid w b)) uid = w).
    unfold window. rewrite force_join_check_msg_times.
    apply window_put_window.
Qed.

End Threshold.

(** C1: after the time stamp of the message is appended to the sender's deque
    and the entries older than [now - SPAM_WINDOW_SEC] are popped, a deque of
    exactly [SPAM_MAX_MSG] entries lets the message through to the force-join
    check, a deque of [SPAM_MAX_MSG + 1] entries is a spam classification, and
    in general the message is classified spam exactly when the count is
    strictly greater than [SPAM_MAX_MSG]. *)
Theorem spam_threshold_strict (update : Update) (env : Env) (b : Bot) :
  handled update env ->
  let uid := user_id (effective_user update) in
  let w := popleft_while (now_received env - timedelta_seconds SPAM_WINDOW_SEC)
             (window b uid ++ [now_received env]) in
  window (state_after (on_group_message update env) b) uid = w /\
  (Z.of_nat (length w) = SPAM_MAX_MSG -> passed_rate_check update env b) /\
  (Z.of_nat (length w) = SPAM_MAX_MSG + 1 -> classified_spam update env b) /\
  (classified_spam update env b <-> SPAM_MAX_MSG < Z.of_nat (length w)) /\
  (passed_rate_check update env b <-> Z.of_nat (length w) <= SPAM_MAX_MSG).
Proof.
  intros H uid w.
  pose proof (classified_spam_iff update env b H) as Hs.
  pose proof (passed_rate_check_iff update env b H) as Hp.
  pose proof (on_group_message_window update env b H) as Hw.
  unfold new_window in *. fold uid w in Hs, Hp, Hw.
  split; [exact Hw|].
  split; [intros E; apply Hp; lia|].
  split; [intros E; apply Hs; lia|].
  by split.
Qed.

(** The sixth message of the sample user within six seconds. *)
Lemma spam_threshold_strict_witness :
  handled (message_of sample_user) (sample_env (timedelta_seconds 5) (Returned "member")) /\
  classified_spam (message_of sample_user)
    (sample_env (timedelta_seconds 5) (Returned "member")) five_messages.
Proof.
  assert (H : handled (message_of sample_user)
                (sample_env (timedelta_seconds 5) (Returned "member")))
    by (split; [reflexivity | discriminate]).
  split; [exact H|].
  apply (spam_threshold_strict _ _ five_messages H). vm_compute. reflexivity.
Defined.

(** * Messages of the bot itself *)

(** C9: a group message whose sender is the bot's own identity makes the
    handler return at once: no call is made and the bot object is returned
    as it was, so the deque, the warning count and the last reminder time of
    every user are unchanged. *)
Theorem self_message_ignored (update : Update) (env : Env) (b : Bot) :
  user_id (effective_user update) = bot_id env ->
  on_group_message update env b = (Returned tt, b, []) /\
  forall v,
    window (state_after (on_group_message update env) b) v = window b v /\
    warning_count (state_after (on_group_message update env) b) v = warning_count b v /\
    last_reminder (state_after (on_group_message update env) b) !! v
      = last_reminder b !! v.
Proof.
  intros Hself.
  assert (E : on_group_message update env b = (Returned tt, b, [])).
  { apply on_group_message_ignored. intros [_ Hne]. by apply Hne. }
  split; [exact E|]. intros v. unfold state_after. by rewrite E.
Qed.

(** A message of the bot's own account, on a bot that holds state. *)
Lemma self_message_ignored_witness :
  user_id (effective_user (message_of bot_user)) = bot_id (sample_env 0 (Returned "left")) /\
  on_group_message (message_of bot_user) (sample_env 0 (Returned "left")) five_messages
    = (Returned tt, five_messages, []).
Proof.
  split; [reflexivity|].
  apply (self_message_ignored (message_of bot_user) (sample_env 0 (Returned "left"))).
  reflexivity.
Defined.

(** * The spam branch *)

Section Spam.

Variables (update : Update) (env : Env) (b : Bot).

Let uid := user_id (effective_user update).
Let w := new_window b uid (now_received env).

Lemma notice_calls_no_membership_check :
  Forall (fun c => is_membership_check c = false) (notice_calls env).
Proof. unfold notice_calls. destruct (r_send env); repeat constructor. Qed.

Lemma spam_calls_no_membership_check count :
  Forall (fun c => is_membership_check c = false) (spam_calls update env count).
Proof.
  unfold spam_calls. repeat (constructor; [done|]).
  apply notice_calls_no_membership_check.
Qed.

Lemma handled_with_member answer :
  handled update env -> handled update (with_member env answer).
Proof. by intros [??]. Qed.

Lemma spam_ignores_oracle answer :
  handled update env -> SPAM_MAX_MSG < Z.of_nat (length w) ->
  on_group_message update (with_member env answer) b = on_group_message update env b.
Proof.
  intros H Hs.
  rewrite (on_group_message_spam update env b H Hs).
  by rewrite (on_group_message_spam update (with_member env answer) b
               (handled_with_member answer H) Hs).
Qed.

End Spam.

(** C6: a message classified as spam is deleted, the sender's warning count
    is bumped and the warning notice is sent (and removed after its delay);
    then the handler returns.  The membership of the sender is not looked
    up (no such call is made, and whatever the oracle would have answered
    the run is the same), and [last_reminder] is left as it was. *)
Theorem spam_skips_membership (update : Update) (env : Env) (b : Bot) :
  handled update env ->
  let uid := user_id (effective_user update) in
  SPAM_MAX_MSG < Z.of_nat (length (new_window b uid (now_received env))) ->
  let b' := state_after (on_group_message update env) b in
  let calls := calls_of (on_group_message update env) b in
  outcome_of (on_group_message update env) b = Returned tt /\
  calls = DeleteMessage IncomingMessage
            :: SendMessage (effective_chat_id update)
                 (spam_warning_text (warning_name (effective_user update))
                    (warning_count b uid + 1)) None None
            :: notice_calls env /\
  Forall (fun c => is_membership_check c = false) calls /\
  last_reminder b' = last_reminder b /\
  warning_count b' uid = warning_count b uid + 1 /\
  forall answer,
    on_group_message update (with_member env answer) b = on_group_message update env b.
Proof.
  intros H uid Hs b' calls.
  pose proof (on_group_message_spam update env b H Hs) as E.
  destruct (run_eq _ _ _ _ _ E) as (Ho & Hb & Hc).
  subst b' calls. rewrite Ho, Hb, Hc.
  split; [done|]. split; [done|].
  split; [apply spam_calls_no_membership_check|].
  split; [done|].
  split; [apply warning_count_put_warning|].
  intros answer. by apply spam_ignores_oracle.
Qed.

(** The sixth message of the sample user, who is not in the channel: the
    calls are those of the spam branch. *)
Lemma spam_skips_membership_witness :
  handled (message_of sample_user) (sample_env (timedelta_seconds 5) (Returned "left")) /\
  SPAM_MAX_MSG < Z.of_nat (length (new_window five_messages 7 (timedelta_seconds 5))) /\
  calls_of (on_group_message (message_of sample_user)
              (sample_env (timedelta_seconds 5) (Returned "left"))) five_messages
    = [DeleteMessage IncomingMessage;
       SendMessage (-100) (spam_warning_text "Al" 1) None None;
       Sleep 60; DeleteMessage SentNotice].
Proof.
  assert (H : handled (message_of sample_user)
                (sample_env (timedelta_seconds 5) (Returned "left")))
    by (split; [reflexivity | discriminate]).
  assert (Hs : SPAM_MAX_MSG
               < Z.of_nat (length (new_window five_messages 7 (timedelta_seconds 5))))
    by (vm_compute; reflexivity).
  split; [exact H|]. split; [exact Hs|].
  exact (proj1 (proj2 (spam_skips_membership _ _ five_messages H Hs))).
Defined.

(** * The warning ledger *)

Section Ledger.

Lemma string_app_assoc (s1 s2 s3 : string) :
  (s1 +:+ s2) +:+ s3 = s1 +:+ (s2 +:+ s3).
Proof.
  induction s1 as [|c s1 IH]; [done|].
  change (String c ((s1 +:+ s2) +:+ s3) = String c (s1 +:+ (s2 +:+ s3))).
  by rewrite IH.
Qed.

(** The warning text ends with the decimal digits of the count. *)
Lemma spam_warning_text_count (name : string) (count : Z) :
  exists prefix, spam_warning_text name count = prefix +:+ str_of_int count.
Proof.
  unfold spam_warning_text.
  eexists. rewrite <- !string_app_assoc. reflexivity.
Qed.

(** Two warnings to the same name with different counts differ. *)
Lemma spam_warning_text_inj (name : string) (c1 c2 : Z) :
  spam_warning_text name c1 = spam_warning_text name c2 -> c1 = c2.
Proof.
  unfold spam_warning_text, str_of_int. intros E.
  repeat apply String.app_inj in E. by apply pretty_Z_inj in E.
Qed.

Lemma on_group_message_warning_count update env b v :
  warning_count b v <= warning_count (state_after (on_group_message update env) b) v.
Proof.
  destruct (decide (handled update env)) as [H|H].
  - set (uid := user_id (effective_user update)).
    set (w := new_window b uid (now_received env)).
    destruct (Z.lt_ge_cases SPAM_MAX_MSG (Z.of_nat (length w))) as [Hs|Hs].
    + unfold state_after. rewrite on_group_message_spam by done. simpl.
      fold uid w. destruct (decide (uid = v)) as [->|Hv].
      * rewrite warning_count_put_warning.
        change (warning_count (put_window v w b) v) with (warning_count b v). lia.
      * rewrite warning_count_put_warning_ne by done. reflexivity.
    + unfold state_after. rewrite on_group_message_pass by done.
      change (warning_count b v <=
              warning_count (state_after (force_join_check update env)
                               (put_window uid w b)) v).
      unfold warning_count at 2. by rewrite force_join_check_warnings.
  - unfold state_after. by rewrite on_group_message_ignored.
Qed.

Lemma decrease_is_reset ev b v :
  warning_count (step b ev) v < warning_count b v -> is_reset ev.
Proof.
  destruct ev as [update env|update env|]; simpl; try done.
  intros Hlt. pose proof (on_group_message_warning_count update env b v).
  unfold step, handler in Hlt. lia.
Qed.

End Ledger.

(** C5: a spam classification bumps the sender's warning count by exactly
    one (and no other user's), the warning notice that is sent ends with the
    decimal digits of the count after the bump, and over every event the bot
    handles a warning count that goes down went down by an explicit reset
    (the [resetwarnings] command or the daily job), never by a message. *)
Theorem warning_count_bumps (update : Update) (env : Env) (b : Bot) :
  let uid := user_id (effective_user update) in
  let b' := state_after (on_group_message update env) b in
  let calls := calls_of (on_group_message update env) b in
  (handled update env ->
   SPAM_MAX_MSG < Z.of_nat (length (new_window b uid (now_received env))) ->
   warning_count b' uid = warning_count b uid + 1 /\
   (forall v, v <> uid -> warning_count b' v = warning_count b v) /\
   exists prefix,
     SendMessage (effective_chat_id update)
       (prefix +:+ str_of_int (warning_count b' uid)) None None ∈ calls) /\
  (forall v, warning_count b v <= warning_count b' v) /\
  (forall ev b0 v, warning_count (step b0 ev) v < warning_count b0 v -> is_reset ev).
Proof.
  intros uid b' calls. split; [|split].
  - intros H Hs.
    pose proof (on_group_message_spam update env b H Hs) as E.
    destruct (run_eq _ _ _ _ _ E) as (_ & Hb & Hc).
    subst b' calls. rewrite Hb, Hc. fold uid.
    split; [apply warning_count_put_warning|].
    split; [intros v Hv; by rewrite warning_count_put_warning_ne|].
    rewrite warning_count_put_warning.
    destruct (spam_warning_text_count (warning_name (effective_user update))
                (warning_count b uid + 1)) as [prefix Hp].
    exists prefix. rewrite <- Hp.
    change (warning_count (put_window uid _ b) uid) with (warning_count b uid).
    unfold spam_calls. set_solver.
  - apply on_group_message_warning_count.
  - apply decrease_is_reset.
Qed.

(** The sixth message of the sample user takes the count from 0 to 1. *)
Lemma warning_count_bumps_witness :
  handled (message_of sample_user) (sample_env (timedelta_seconds 5) (Returned "member")) /\
  SPAM_MAX_MSG < Z.of_nat (length (new_window five_messages 7 (timedelta_seconds 5))) /\
  warning_count
    (state_after (on_group_message (message_of sample_user)
                    (sample_env (timedelta_seconds 5) (Returned "member"))) five_messages) 7
    = warning_count five_messages 7 + 1.
Proof.
  assert (H : handled (message_of sample_user)
                (sample_env (timedelta_seconds 5) (Returned "member")))
    by (split; [reflexivity | discriminate]).
  assert (Hs : SPAM_MAX_MSG
               < Z.of_nat (length (new_window five_messages 7 (timedelta_seconds 5))))
    by (vm_compute; reflexivity).
  split; [exact H|]. split; [exact Hs|].
  exact (proj1 (proj1 (warning_count_bumps _ _ five_messages) H Hs)).
Defined.

(** * The reminder throttle *)

Section Throttle.

Lemma reminder_due_spec (last : option Z) (now : Z) :
  reminder_due last now = true <->
  last = None \/ exists t, last = Some t /\ timedelta_minutes 2 < now - t.
Proof.
  destruct last as [t|]; simpl.
  - rewrite Z.ltb_lt. split.
    + intros H. right. by exists t.
    + by intros [|(t' & [= <-] & H)].
  - split; [by left | done].
Qed.

Variables (update : Update) (env : Env) (b : Bot).

Let uid := user_id (effective_user update).
Let w := new_window b uid (now_received env).

Hypothesis Hhandled : handled update env.
Hypothesis Hpass : Z.of_nat (length w) <= SPAM_MAX_MSG.
Hypothesis Hout : in_channel env uid = Returned false.

Lemma non_member_due :
  reminder_due (last_reminder b !! uid) (now_checked env) = true ->
  on_group_message update env b =
    (Returned tt, put_reminder uid (now_marked env) (put_window uid w b),
     membership_call update :: DeleteMessage IncomingMessage
       :: join_reminder_call update :: notice_calls env).
Proof.
  intros Hdue. rewrite on_group_message_pass by done.
  rewrite force_join_check_run. fold uid. rewrite Hout.
  change (last_reminder (put_window uid (new_window b uid (now_received env)) b))
    with (last_reminder b).
  by rewrite Hdue.
Qed.

Lemma non_member_throttled :
  reminder_due (last_reminder b !! uid) (now_checked env) = false ->
  on_group_message update env b =
    (Returned tt, put_window uid w b,
     [membership_call update; DeleteMessage IncomingMessage]).
Proof.
  intros Hdue. rewrite on_group_message_pass by done.
  rewrite force_join_check_run. fold uid. rewrite Hout.
  change (last_reminder (put_window uid (new_window b uid (now_received env)) b))
    with (last_reminder b).
  by rewrite Hdue.
Qed.

Lemma non_member_deleted :
  DeleteMessage IncomingMessage ∈ calls_of (on_group_message update env) b.
Proof.
  unfold calls_of.
  destruct (reminder_due (last_reminder b !! uid) (now_checked env)) eqn:Hdue.
  - rewrite non_member_due by done. simpl. set_solver.
  - rewrite non_member_throttled by done. simpl. set_solver.
Qed.

Lemma non_member_reminded_iff :
  join_reminder_call update ∈ calls_of (on_group_message update env) b <->
  reminder_due (last_reminder b !! uid) (now_checked env) = true.
Proof.
  unfold calls_of.
  destruct (reminder_due (last_reminder b !! uid) (now_checked env)) eqn:Hdue.
  - rewrite non_member_due by done. simpl. split; [done|]. intros _. set_solver.
  - rewrite non_member_throttled by done. simpl. split; [|done].
    intros H. repeat (apply elem_of_cons in H as [H|H]; [discriminate|]).
    by apply elem_of_nil in H.
Qed.

End Throttle.

(** A further message of a user whose last reminder was marked at [t]: while
    no more than two minutes have passed since [t], a non-member's message is
    deleted without a reminder, and [last_reminder] stays as it is. *)
Lemma second_message_throttled (update : Update) (env : Env) (b : Bot) (t : Z) :
  handled update env ->
  let uid := user_id (effective_user update) in
  Z.of_nat (length (new_window b uid (now_received env))) <= SPAM_MAX_MSG ->
  in_channel env uid = Returned false ->
  last_reminder b !! uid = Some t ->
  now_checked env - t <= timedelta_minutes 2 ->
  calls_of (on_group_message update env) b
    = [membership_call update; DeleteMessage IncomingMessage] /\
  last_reminder (state_after (on_group_message update env) b) = last_reminder b.
Proof.
  intros H uid Hp Ho Hl Ht.
  assert (Hdue : reminder_due (last_reminder b !! uid) (now_checked env) = false).
  { rewrite Hl. simpl. by apply Z.ltb_ge. }
  pose proof (non_member_throttled update env b H Hp Ho Hdue) as E.
  unfold calls_of, state_after. by rewrite E.
Qed.

(** C2: for a message of a non-member that the rate check lets through, the
    message is deleted, and the join reminder is sent if and only if
    [last_reminder] has no entry for the sender or the entry is more than two
    minutes older than the clock reading of the check.  A reminder that is
    sent is recorded, and a second message of the same non-member checked one
    second after that record is deleted without a second reminder. *)
Theorem reminder_throttle (update : Update) (env : Env) (b : Bot) :
  handled update env ->
  let uid := user_id (effective_user update) in
  Z.of_nat (length (new_window b uid (now_received env))) <= SPAM_MAX_MSG ->
  in_channel env uid = Returned false ->
  let b' := state_after (on_group_message update env) b in
  let calls := calls_of (on_group_message update env) b in
  DeleteMessage IncomingMessage ∈ calls /\
  (join_reminder_call update ∈ calls <->
     last_reminder b !! uid = None \/
     exists t, last_reminder b !! uid = Some t /\
               timedelta_minutes 2 < now_checked env - t) /\
  (join_reminder_call update ∈ calls ->
     last_reminder b' !! uid = Some (now_marked env)) /\
  forall update2 env2,
    handled update2 env2 ->
    user_id (effective_user update2) = uid ->
    Z.of_nat (length (new_window b' uid (now_received env2))) <= SPAM_MAX_MSG ->
    in_channel env2 uid = Returned false ->
    join_reminder_call update ∈ calls ->
    now_checked env2 = now_marked env + timedelta_seconds 1 ->
    calls_of (on_group_message update2 env2) b'
      = [membership_call update2; DeleteMessage IncomingMessage] /\
    last_reminder (state_after (on_group_message update2 env2) b') = last_reminder b'.
Proof.
  intros H uid Hp Ho b' calls.
  pose proof (non_member_reminded_iff update env b H Hp Ho) as Hiff.
  fold uid calls in Hiff.
  assert (Hmark : join_reminder_call update ∈ calls ->
                  last_reminder b' !! uid = Some (now_marked env)).
  { intros Hin. apply Hiff in Hin.
    pose proof (non_member_due update env b H Hp Ho Hin) as E.
    subst b'. unfold state_after. rewrite E. simpl. fold uid.
    apply lookup_insert_eq. }
  split; [by apply non_member_deleted|].
  split; [by rewrite Hiff, reminder_due_spec|].
  split; [exact Hmark|].
  intros update2 env2 H2 Hu Hp2 Ho2 Hin Hnow.
  apply (second_message_throttled update2 env2 b' (now_marked env)); rewrite ?Hu;
    [exact H2 | exact Hp2 | exact Ho2 | by apply Hmark |].
  rewrite Hnow. unfold timedelta_seconds, timedelta_minutes. lia.
Qed.

(** The sample user, not in the channel, writes at second 0 and is reminded;
    the reminder is marked at second 60, and the message checked at second
    61 is deleted without a reminder. *)
Lemma reminder_throttle_witness :
  let first := sample_env 0 (Returned "left") in
  let second := sample_env (timedelta_seconds 61) (Raised Forbidden) in
  let b' := state_after (on_group_message (message_of sample_user) first) init in
  handled (message_of sample_user) first /\
  Z.of_nat (length (new_window init 7 (now_received first))) <= SPAM_MAX_MSG /\
  in_channel first 7 = Returned false /\
  join_reminder_call (message_of sample_user)
    ∈ calls_of (on_group_message (message_of sample_user) first) init /\
  now_checked second = now_marked first + timedelta_seconds 1 /\
  calls_of (on_group_message (message_of sample_user) second) b'
    = [membership_call (message_of sample_user); DeleteMessage IncomingMessage].
Proof.
  intros first second b'.
  assert (H : handled (message_of sample_user) first)
    by (split; [reflexivity | discriminate]).
  assert (Hp : Z.of_nat (length (new_window init 7 (now_received first))) <= SPAM_MAX_MSG)
    by (vm_compute; discriminate).
  assert (Ho : in_channel first 7 = Returned false) by reflexivity.
  pose proof (reminder_throttle (message_of sample_user) first init H Hp Ho)
    as (_ & Hiff & _ & Hnext).
  assert (Hin : join_reminder_call (message_of sample_user)
                  ∈ calls_of (on_group_message (message_of sample_user) first) init)
    by (apply Hiff; by left).
  repeat (split; [done|]).
  apply (Hnext (message_of sample_user) second); try done.
Defined.

(** * The membership check *)

Section Membership.

Variables (uid : Z) (env : Env) (b : Bot).

Lemma is_user_in_channel_status status :
  r_member env = Returned status ->
  is_user_in_channel uid env b =
    (Returned (bool_decide (status ∈ ["member"; "administrator"; "creator"; "owner"])),
     b, [GetChatMember (ChatName CHANNEL_USERNAME) uid]).
Proof.
  intros E. rewrite is_user_in_channel_run.
  unfold in_channel, outcome_of, is_user_in_channel, try_except, bind, transport, ret.
  by rewrite E.
Qed.

Lemma is_user_in_channel_caught e :
  r_member env = Raised e -> e = BadRequest \/ e = Forbidden ->
  is_user_in_channel uid env b =
    (Returned false, b, [GetChatMember (ChatName CHANNEL_USERNAME) uid]).
Proof.
  intros E He. rewrite is_user_in_channel_run.
  unfold in_channel, outcome_of, is_user_in_channel, try_except, bind, transport, ret.
  rewrite E. by destruct He as [-> | ->].
Qed.

Lemma is_user_in_channel_uncaught :
  r_member env = Raised OtherException ->
  is_user_in_channel uid env b =
    (Raised OtherException, b, [GetChatMember (ChatName CHANNEL_USERNAME) uid]).
Proof.
  intros E. rewrite is_user_in_channel_run.
  unfold in_channel, outcome_of, is_user_in_channel, try_except, bind, transport, ret.
  by rewrite E.
Qed.

End Membership.

(** C7 as stated fails: a raise of the oracle that is neither [BadRequest]
    nor [Forbidden] (a time-out, say) is not turned into [False]; it leaves
    [is_user_in_channel], and [on_group_message] with it, as a raise, and
    the message is not deleted. *)
Lemma membership_timeout_propagates :
  ~ fails_closed 7 (sample_env 0 (Raised OtherException)) init /\
  on_group_message (message_of sample_user) (sample_env 0 (Raised OtherException)) init
    = (Raised OtherException, put_window 7 [0] init,
       [GetChatMember (ChatName CHANNEL_USERNAME) 7]).
Proof.
  split.
  - intros H. assert (Hr : exists e, r_member (sample_env 0 (Raised OtherException))
                                     = Raised e) by (by eexists).
    specialize (H Hr). vm_compute in H. discriminate.
  - reflexivity.
Qed.

(** C7, amended: when the oracle raises [BadRequest] or [Forbidden], the
    membership check returns [False] with the bot object unchanged, and the
    raise is not propagated; a raise of any other class is not caught by
    [is_user_in_channel] and reaches the caller. *)
Theorem membership_fail_closed (uid : Z) (env : Env) (b : Bot) (e : Exn) :
  r_member env = Raised e ->
  (e = BadRequest \/ e = Forbidden ->
   is_user_in_channel uid env b =
     (Returned false, b, [GetChatMember (ChatName CHANNEL_USERNAME) uid])) /\
  (e = OtherException ->
   is_user_in_channel uid env b =
     (Raised OtherException, b, [GetChatMember (ChatName CHANNEL_USERNAME) uid])).
Proof.
  intros E. split.
  - intros He. by apply (is_user_in_channel_caught uid env b e).
  - intros ->. by apply is_user_in_channel_uncaught.
Qed.

(** The oracle raises [Forbidden]. *)
Lemma membership_fail_closed_witness :
  r_member (sample_env 0 (Raised Forbidden)) = Raised Forbidden /\
  is_user_in_channel 7 (sample_env 0 (Raised Forbidden)) six_messages
    = (Returned false, six_messages, [GetChatMember (ChatName CHANNEL_USERNAME) 7]).
Proof.
  split; [reflexivity|].
  apply (membership_fail_closed 7 (sample_env 0 (Raised Forbidden)) six_messages Forbidden);
    [reflexivity | by right].
Defined.

(** * The resets *)

Section Resets.

Variables (update : Update) (env : CmdEnv) (b : Bot).

Let status_call : Call :=
  GetChatMember (ChatId (effective_chat_id update)) (user_id (effective_user update)).

Let cleared : Bot :=
  {| msg_times := msg_times b; warnings := ∅; last_reminder := last_reminder b |}.



(** The look-up of the caller's status raises: the raise is passed over,
    and the ledger is cleared whoever the caller is. *)
Lemma cmd_reset_warnings_lookup_raises e :
  c_member env = Raised e ->
  cmd_reset_warnings update env b = (c_reply_done env, cleared, [status_call; ReplyText done_text]).
Proof.
  intros Em.
  unfold cmd_reset_warnings, try_except, bind, transport, ret, warnings_clear,
    get_bot, put_bot.
  rewrite Em. simpl. by destruct (c_reply_done env).
Qed.

(** The caller is not an administrator and the reply with the rejection
    raises: the raise is passed over, and the ledger is cleared. *)
Lemma cmd_reset_warnings_reply_raises status e :
  c_member env = Returned status ->
  status ∉ ["administrator"; "creator"] ->
  c_reply_denied env = Raised e ->
  cmd_reset_warnings update env b =
    (c_reply_done env, cleared, [status_call; ReplyText denied_text; ReplyText done_text]).
Proof.
  intros Em Hs Er.
  unfold cmd_reset_warnings, try_except, bind, transport, ret, warnings_clear,
    get_bot, put_bot.
  rewrite Em. rewrite (bool_decide_eq_false_2 _ Hs). simpl. rewrite Er. simpl.
  by destruct (c_reply_done env).
Qed.

Lemma reset_warnings_daily_run :
  reset_warnings_daily b = (Returned tt, init, []).
Proof. reflexivity. Qed.

End Resets.

(** C3: where the code departs from the claim.  The sample user has one
    warning and is a plain member of the chat, not an administrator.
    When the reply that carries the rejection raises, or when the look-up of
    the caller's status raises, the [except Exception: pass] of line 190
    passes over the raise and the handler goes on to line 193: the ledger
    is cleared and the confirmation is sent, although the comment of line 184
    allows the command to group administrators only. *)
Theorem reset_by_non_admin :
  warning_count six_messages 7 = 1 /\
  cmd_reset_warnings (message_of sample_user) member_reply_fails six_messages
    = (Returned tt,
       {| msg_times := msg_times six_messages; warnings := ∅;
          last_reminder := last_reminder six_messages |},
       [GetChatMember (ChatId (-100)) 7; ReplyText denied_text; ReplyText done_text]) /\
  cmd_reset_warnings (message_of sample_user) lookup_fails six_messages
    = (Returned tt,
       {| msg_times := msg_times six_messages; warnings := ∅;
          last_reminder := last_reminder six_messages |},
       [GetChatMember (ChatId (-100)) 7; ReplyText done_text]) /\
  warning_count
    (state_after (cmd_reset_warnings (message_of sample_user) member_reply_fails)
       six_messages) 7 = 0.
Proof.
  split; [by vm_compute|].
  split.
  { apply (cmd_reset_warnings_reply_raises (message_of sample_user)
             member_reply_fails six_messages "member" OtherException);
      [reflexivity | not_in_list | reflexivity]. }
  split.
  { by apply (cmd_reset_warnings_lookup_raises (message_of sample_user)
                lookup_fails six_messages OtherException). }
  reflexivity.
Qed.

(** C4: the daily job, which [run] registers for 00:00 in the time zone
    [TZ], empties [warnings], [msg_times] and [last_reminder] in one step
    without a call to the transport: the bot object is again the one
    [__init__] built.  Every user then has an empty deque, no warning and no
    reminder time, and any message handled next runs exactly as it runs on a
    freshly built bot. *)
Theorem daily_reset_clears (b : Bot) :
  run_daily_jobs
    = [(reset_warnings_daily, {| hour := 0; minute := 0; tzinfo := "Asia/Baghdad" |})] /\
  reset_warnings_daily b = (Returned tt, init, []) /\
  step b DailyJob = init /\
  (forall v, window (step b DailyJob) v = [] /\
             warning_count (step b DailyJob) v = 0 /\
             last_reminder (step b DailyJob) !! v = None) /\
  (forall update env,
     on_group_message update env (step b DailyJob) = on_group_message update env init).
Proof.
  split; [reflexivity|].
  split; [reflexivity|].
  split; [reflexivity|].
  split; [|reflexivity].
  intros v. change (step b DailyJob) with init.
  unfold window, warning_count, init. simpl. by rewrite !lookup_empty.
Qed.

(** A message handled right after the daily job, from a user who had
    warnings and a full deque before it: the deque holds this message only,
    the rate check lets it through, and a non-member is reminded whatever
    reminder time was recorded before. *)
Lemma first_message_after_reset (update : Update) (env : Env) (b : Bot) :
  handled update env ->
  let uid := user_id (effective_user update) in
  let b' := state_after (on_group_message update env) (step b DailyJob) in
  window b' uid = [now_received env] /\
  warning_count b' uid = 0 /\
  passed_rate_check update env (step b DailyJob) /\
  (in_channel env uid = Returned false ->
   join_reminder_call update ∈ calls_of (on_group_message update env) (step b DailyJob)).
Proof.
  intros H uid b'. change (step b DailyJob) with init in *.
  assert (Hw : new_window init uid (now_received env) = [now_received env]).
  { rewrite new_window_snoc. unfold window, init. simpl. by rewrite lookup_empty. }
  assert (Hp : Z.of_nat (length (new_window init uid (now_received env))) <= SPAM_MAX_MSG).
  { rewrite Hw. simpl. unfold SPAM_MAX_MSG. lia. }
  assert (Hpass : passed_rate_check update env init)
    by (by apply passed_rate_check_iff).
  split; [|split; [|split; [done|]]].
  - subst b'. by rewrite on_group_message_window.
  - destruct Hpass as [Hwarn _]. subst b'. unfold warning_count. rewrite Hwarn.
    unfold init. simpl. by rewrite lookup_empty.
  - intros Ho. by apply non_member_reminded_iff.
Qed.

(** * The window of an idle user *)

Section Idle.

Variables (update : Update) (env : Env) (b : Bot).

Let uid := user_id (effective_user update).
Let now := now_received env.

Lemma on_group_message_other_window v :
  v <> uid -> window (state_after (on_group_message update env) b) v = window b v.
Proof.
  intros Hv. destruct (decide (handled update env)) as [H|H].
  - set (w := new_window b uid now).
    destruct (Z.lt_ge_cases SPAM_MAX_MSG (Z.of_nat (length w))) as [Hs|Hs].
    + unfold state_after. rewrite on_group_message_spam by done. simpl.
      change (window (put_window uid w b) v = window b v).
      by apply window_put_window_ne.
    + unfold state_after. rewrite on_group_message_pass by done.
      change (window (state_after (force_join_check update env)
                        (put_window uid w b)) v = window b v).
      unfold window at 1. rewrite force_join_check_msg_times.
      by apply window_put_window_ne.
  - unfold state_after. by rewrite on_group_message_ignored.
Qed.

Lemma new_window_recent :
  StronglySorted Z.le (window b uid) -> Forall (fun t => t <= now) (window b uid) ->
  StronglySorted Z.le (new_window b uid now) /\
  Forall (fun t => now - timedelta_seconds SPAM_WINDOW_SEC <= t <= now)
    (new_window b uid now).
Proof.
  intros Hs Hle.
  pose proof (sorted_snoc _ _ Hs Hle) as Hsn.
  assert (Hle' : Forall (fun t => t <= now) (window b uid ++ [now])).
  { apply Forall_app. split; [done|]. repeat constructor. lia. }
  unfold new_window. split; [by apply popleft_while_sorted|].
  apply Forall_and. split; [by apply popleft_while_recent|].
  eapply Forall_forall. intros t Ht.
  eapply (proj1 (Forall_forall _ _) Hle').
  eapply elem_of_suffix; [exact Ht | apply popleft_while_suffix].
Qed.

Lemma new_window_after_idle :
  Forall (fun t => t < now - timedelta_seconds SPAM_WINDOW_SEC) (window b uid) ->
  new_window b uid now = [now].
Proof.
  intros Hold. rewrite new_window_snoc. by rewrite popleft_while_all_old.
Qed.

End Idle.

(** C8 as stated fails.  The sample user sends one message at second 0 and
    nothing more; at second 20 another user's message is handled.  More than
    [SPAM_WINDOW_SEC] seconds have passed, yet the sample user's deque still
    holds the time stamp 0: it is not empty, and it holds a time stamp older
    than [now - SPAM_WINDOW_SEC].  When the sample user's next message is
    handled (at second 20), the deque holds that message's time stamp. *)
Lemma idle_window_kept :
  let b := run [message_at sample_user 0; message_at other_user 20] init in
  window b 7 = [0] /\
  ~ idle_window_purged b 7 (timedelta_seconds 20) /\
  window b 7 <> [] /\
  ~ Forall (fun t => timedelta_seconds 20 - timedelta_seconds SPAM_WINDOW_SEC <= t)
      (window b 7) /\
  window (step b (message_at sample_user 20)) 7 = [timedelta_seconds 20].
Proof.
  intros b.
  assert (Hw : window b 7 = [0]) by (by vm_compute).
  split; [exact Hw|].
  split; [intros [He _]; rewrite Hw in He; discriminate|].
  split; [rewrite Hw; discriminate|].
  split; [|by vm_compute].
  rewrite Hw. intros Hall. apply Forall_cons in Hall as [H0 _].
  vm_compute in H0. by apply H0.
Qed.

(** C8, amended: the deque of a user is purged when a message of that user is
    handled, not by the passing of time.  When such a message is handled at
    [now] and the stored time stamps are in the order of the clock and not
    later than [now], every time stamp the deque then holds lies between
    [now - SPAM_WINDOW_SEC] and [now]; if every stored time stamp was older
    than [now - SPAM_WINDOW_SEC] (the user was idle for longer than the
    window), the deque then holds exactly the time stamp of this message.
    The deques of the other users are left as they are. *)
Theorem window_purged_on_access (update : Update) (env : Env) (b : Bot) :
  handled update env ->
  let uid := user_id (effective_user update) in
  let now := now_received env in
  StronglySorted Z.le (window b uid) ->
  Forall (fun t => t <= now) (window b uid) ->
  let b' := state_after (on_group_message update env) b in
  Forall (fun t => now - timedelta_seconds SPAM_WINDOW_SEC <= t <= now) (window b' uid) /\
  StronglySorted Z.le (window b' uid) /\
  (Forall (fun t => t < now - timedelta_seconds SPAM_WINDOW_SEC) (window b uid) ->
   window b' uid = [now]) /\
  (forall v, v <> uid -> window b' v = window b v).
Proof.
  intros H uid now Hs Hle b'.
  assert (Hw : window b' uid = new_window b uid now)
    by (by apply on_group_message_window).
  destruct (new_window_recent update env b Hs Hle) as [Hsorted Hrecent].
  rewrite Hw. split; [exact Hrecent|]. split; [exact Hsorted|].
  split; [by apply new_window_after_idle|].
  intros v Hv. by apply on_group_message_other_window.
Qed.

(** The sample user writes again fifteen seconds after a burst of six. *)
Lemma window_purged_on_access_witness :
  let update := message_of sample_user in
  let env := sample_env (timedelta_seconds 20) (Returned "member") in
  handled update env /\
  StronglySorted Z.le (window six_messages 7) /\
  Forall (fun t => t <= timedelta_seconds 20) (window six_messages 7) /\
  Forall (fun t => t < timedelta_seconds 20 - timedelta_seconds SPAM_WINDOW_SEC)
    (window six_messages 7) /\
  window (state_after (on_group_message update env) six_messages) 7
    = [timedelta_seconds 20].
Proof.
  intros update env.
  assert (H : handled update env) by (split; [reflexivity | discriminate]).
  assert (Hw : window six_messages 7
               = [0; 1000000; 2000000; 3000000; 4000000; 5000000])
    by (by vm_compute).
  assert (Hs : StronglySorted Z.le (window six_messages 7)).
  { rewrite Hw. repeat (constructor; [|repeat (constructor; [done|]); constructor]).
    constructor. }
  assert (Hle : Forall (fun t => t <= timedelta_seconds 20) (window six_messages 7)).
  { rewrite Hw. repeat (constructor; [done|]). constructor. }
  assert (Hold : Forall (fun t => t < timedelta_seconds 20
                                      - timedelta_seconds SPAM_WINDOW_SEC)
                   (window six_messages 7)).
  { rewrite Hw. repeat (constructor; [done|]). constructor. }
  repeat (split; [done|]).
  by apply (window_purged_on_access update env six_messages H Hs Hle).
Defined.

(** * Repeated spam *)

Section Repeated.

Variables (update : Update) (env : Env) (b : Bot).

Let uid := user_id (effective_user update).

Lemma new_window_in_window_entries now :
  new_window b uid now = in_window_entries b uid now ++ [now].
Proof. apply new_window_snoc. Qed.

(** While the oldest stored time stamp is inside the window, nothing is
    popped. *)
Lemma in_window_entries_all now t :
  head (window b uid) = Some t ->
  now - timedelta_seconds SPAM_WINDOW_SEC <= t ->
  in_window_entries b uid now = window b uid.
Proof. intros Hh Ht. by apply (popleft_while_keeps _ _ t). Qed.

Lemma spam_again :
  handled update env ->
  SPAM_MAX_MSG < Z.of_nat (length (new_window b uid (now_received env))) ->
  classified_spam update env b /\
  warning_count (state_after (on_group_message update env) b) uid
    = warning_count b uid + 1.
Proof.
  intros H Hs. split; [by apply classified_spam_iff|].
  unfold state_after. rewrite on_group_message_spam by done. simpl.
  apply warning_count_put_warning.
Qed.

End Repeated.

(** C10: a spam classification leaves the sender's deque as the purge made
    it; it is not cleared, and the time stamp of the spam message is its
    last entry.  So the deque holds more than [SPAM_MAX_MSG] entries after
    it, and every further message of the same user that still finds more
    than [SPAM_MAX_MSG] entries in the window (after its own purge; this is
    so in particular when at least [SPAM_MAX_MSG] stored entries survive
    the purge, or when the oldest stored entry is not yet older than the
    window) is classified spam again and bumps the warning count once
    more. *)
Theorem spam_keeps_window (update : Update) (env : Env) (b : Bot) :
  handled update env ->
  let uid := user_id (effective_user update) in
  let w := popleft_while (now_received env - timedelta_seconds SPAM_WINDOW_SEC)
             (window b uid ++ [now_received env]) in
  SPAM_MAX_MSG < Z.of_nat (length w) ->
  let b1 := state_after (on_group_message update env) b in
  window b1 uid = w /\
  last (window b1 uid) = Some (now_received env) /\
  SPAM_MAX_MSG < Z.of_nat (length (window b1 uid)) /\
  forall update2 env2,
    handled update2 env2 ->
    user_id (effective_user update2) = uid ->
    let now2 := now_received env2 in
    let b2 := state_after (on_group_message update2 env2) b1 in
    (SPAM_MAX_MSG < Z.of_nat (length (new_window b1 uid now2)) ->
     classified_spam update2 env2 b1 /\
     warning_count b2 uid = warning_count b uid + 2 /\
     last (window b2 uid) = Some now2) /\
    (SPAM_MAX_MSG <= Z.of_nat (length (in_window_entries b1 uid now2)) ->
     SPAM_MAX_MSG < Z.of_nat (length (new_window b1 uid now2))) /\
    (forall t, head (window b1 uid) = Some t ->
               now2 - timedelta_seconds SPAM_WINDOW_SEC <= t ->
               SPAM_MAX_MSG < Z.of_nat (length (new_window b1 uid now2))).
Proof.
  intros H uid w Hs b1.
  assert (Hw : window b1 uid = w) by (by apply on_group_message_window).
  assert (Hc : warning_count b1 uid = warning_count b uid + 1)
    by (by apply spam_again).
  split; [exact Hw|].
  split; [rewrite Hw; apply new_window_last|].
  split; [by rewrite Hw|].
  intros update2 env2 H2 Hu now2 b2.
  split; [|split].
  - intros Hs2. rewrite <- Hu in Hs2.
    destruct (spam_again update2 env2 b1 H2 Hs2) as [Hspam Hcount].
    split; [exact Hspam|]. subst b2. rewrite <- Hu at 1 3.
    split; [rewrite Hcount, Hu; lia|].
    rewrite on_group_message_window by done. apply new_window_last.
  - intros Hin. rewrite new_window_snoc, length_app. simpl.
    unfold in_window_entries in Hin. lia.
  - intros t Hh Ht. rewrite new_window_snoc.
    rewrite (popleft_while_keeps _ _ t Hh Ht), length_app, Hw. simpl. lia.
Qed.

(** The sixth and the seventh message of the sample user are both spam. *)
Lemma spam_keeps_window_witness :
  let update := message_of sample_user in
  let env := sample_env (timedelta_seconds 5) (Returned "member") in
  let env2 := sample_env (timedelta_seconds 6) (Returned "member") in
  let b1 := state_after (on_group_message update env) five_messages in
  handled update env /\
  SPAM_MAX_MSG < Z.of_nat (length (new_window five_messages 7 (now_received env))) /\
  window b1 7 = [0; 1000000; 2000000; 3000000; 4000000; 5000000] /\
  classified_spam update env2 b1 /\
  warning_count (state_after (on_group_message update env2) b1) 7 = 2.
Proof.
  intros update env env2 b1.
  assert (H : handled update env) by (split; [reflexivity | discriminate]).
  assert (H2 : handled update env2) by (split; [reflexivity | discriminate]).
  assert (Hs : SPAM_MAX_MSG
               < Z.of_nat (length (new_window five_messages 7 (now_received env))))
    by (by vm_compute).
  destruct (spam_keeps_window update env five_messages H Hs) as (Hw & _ & _ & Hnext).
  destruct (Hnext update env2 H2 eq_refl) as (Hagain & _ & _).
  assert (Hs2 : SPAM_MAX_MSG < Z.of_nat (length (new_window b1 7 (now_received env2))))
    by (by vm_compute).
  destruct (Hagain Hs2) as (Hspam & Hcount & _).
  split; [exact H|]. split; [exact Hs|].
  split; [etrans; [exact Hw | by vm_compute]|].
  split; [exact Hspam|]. exact Hcount.
Defined.

(** * Runs of the bot *)

Section Runs.

Lemma cmd_reset_warnings_msg_times update env b :
  msg_times (state_after (cmd_reset_warnings update env) b) = msg_times b /\
  last_reminder (state_after (cmd_reset_warnings update env) b) = last_reminder b.
Proof.
  unfold state_after, cmd_reset_warnings, try_except, bind, transport, ret,
    warnings_clear, get_bot, put_bot.
  destruct (c_member env) as [status|e]; simpl.
  - destruct (bool_decide (status ∈ ["administrator"; "creator"])); simpl.
    + by destruct (c_reply_done env).
    + destruct (c_reply_denied env) as [[]|e]; simpl; [done|].
      by destruct (c_reply_done env).
  - by destruct (c_reply_done env).
Qed.

Lemma chronological_init t : chronological init t.
Proof.
  intros uid. unfold window, init. simpl. rewrite lookup_empty. simpl.
  split; constructor.
Qed.

Lemma chronological_later b t t' : chronological b t -> t <= t' -> chronological b t'.
Proof.
  intros Hb Ht uid. destruct (Hb uid) as [Hs Hle]. split; [done|].
  eapply Forall_impl; [exact Hle|]. simpl. lia.
Qed.

(** With a clock that does not run backwards, the deques stay in the order
    of the clock over every event. *)
Lemma chronological_step b t ev :
  chronological b t ->
  match ev with
  | GroupMessage update env =>
      t <= now_received env -> chronological (step b ev) (now_received env)
  | _ => chronological (step b ev) t
  end.
Proof.
  intros Hb. destruct ev as [update env|update env|].
  - intros Ht v. unfold step, handler.
    destruct (decide (handled update env)) as [H|H].
    + destruct (decide (v = user_id (effective_user update))) as [->|Hv].
      * rewrite on_group_message_window by done.
        destruct (chronological_later b t _ Hb Ht (user_id (effective_user update)))
          as [Hs Hle].
        destruct (new_window_recent update env b Hs Hle) as [Hs' Hle'].
        split; [done|]. eapply Forall_impl; [exact Hle'|]. simpl. lia.
      * rewrite on_group_message_other_window by done.
        by apply (chronological_later b t).
    + unfold state_after. rewrite on_group_message_ignored by done.
      by apply (chronological_later b t).
  - intros v. unfold step, handler, window.
    rewrite (proj1 (cmd_reset_warnings_msg_times update env b)). apply Hb.
  - change (step b DailyJob) with init. apply chronological_init.
Qed.

Lemma run_cons ev evs b : run (ev :: evs) b = run evs (step b ev).
Proof. reflexivity. Qed.

(** A burst: messages of one user that all fall within the window of the
    oldest stored time stamp are all kept in the deque. *)
Lemma burst_window update (envs : list Env) : forall b t0,
  let uid := user_id (effective_user update) in
  Forall (fun env => handled update env /\
                     now_received env - timedelta_seconds SPAM_WINDOW_SEC <= t0) envs ->
  head (window b uid ++ map now_received envs) = Some t0 ->
  window (run (map (GroupMessage update) envs) b) uid
    = window b uid ++ map now_received envs.
Proof.
  induction envs as [|env envs IH]; intros b t0 uid Hall Hh.
  - simpl. by rewrite app_nil_r.
  - apply Forall_cons in Hall as [[H Ht] Hall].
    assert (Hw : window (step b (GroupMessage update env)) uid
                 = window b uid ++ [now_received env]).
    { unfold step, handler. rewrite on_group_message_window by done.
      unfold new_window. apply (popleft_while_keeps _ _ t0); [|done].
      fold uid. destruct (window b uid); simpl in *; congruence. }
    change (map (GroupMessage update) (env :: envs))
      with (GroupMessage update env :: map (GroupMessage update) envs).
    change (map now_received (env :: envs))
      with ([now_received env] ++ map now_received envs) in *.
    rewrite run_cons. rewrite (IH _ t0 Hall); fold uid; rewrite Hw.
    + by rewrite <- app_assoc.
    + by rewrite <- app_assoc.
Qed.

(** X11 (spec, section 8): from an empty deque, the messages of a burst
    within [SPAM_WINDOW_SEC] seconds (the bound included) pass the rate
    check up to the [SPAM_MAX_MSG]-th, and from the next one on they are
    classified spam. *)
Lemma burst_verdict update (envs : list Env) env b t0 :
  let uid := user_id (effective_user update) in
  window b uid = [] ->
  Forall (fun env => handled update env /\
                     now_received env - timedelta_seconds SPAM_WINDOW_SEC <= t0)
    (envs ++ [env]) ->
  head (map now_received (envs ++ [env])) = Some t0 ->
  let b' := run (map (GroupMessage update) envs) b in
  (Z.of_nat (length envs) < SPAM_MAX_MSG -> passed_rate_check update env b') /\
  (SPAM_MAX_MSG <= Z.of_nat (length envs) -> classified_spam update env b').
Proof.
  intros uid He Hall Hh b'.
  apply Forall_app in Hall as [Hall Hlast].
  apply Forall_cons in Hlast as [[H Ht] _].
  assert (Hw : window b' uid = map now_received envs).
  { destruct envs as [|env0 envs]; [done|].
    pose proof (burst_window update (env0 :: envs) b t0 Hall) as Hb.
    cbv zeta in Hb. fold uid in Hb. rewrite He in Hb. apply Hb.
    simpl in *. congruence. }
  assert (Hn : new_window b' uid (now_received env)
               = map now_received envs ++ [now_received env]).
  { unfold new_window. rewrite Hw. apply (popleft_while_keeps _ _ t0); [|done].
    by rewrite map_app in Hh. }
  assert (Hlen : Z.of_nat (length (new_window b' uid (now_received env)))
                 = Z.of_nat (length envs) + 1).
  { rewrite Hn, length_app, length_map. simpl. lia. }
  split; intros Hk.
  - apply passed_rate_check_iff; [done|]. fold uid. lia.
  - apply classified_spam_iff; [done|]. fold uid. lia.
Qed.

End Runs.

(** Spec, section 8, on its numbers: six messages at the seconds 0 to 5. *)
Example six_in_six_seconds :
  Forall (fun k => passed_rate_check (message_of sample_user)
                     (sample_env (timedelta_seconds k) (Returned "member"))
                     (run (map (message_at sample_user) (seqZ 0 k)) init))
    [0; 1; 2; 3; 4] /\
  classified_spam (message_of sample_user)
    (sample_env (timedelta_seconds 5) (Returned "member")) five_messages /\
  warning_count six_messages 7 = 1.
Proof.
  split; [|split].
  - repeat (constructor; [by vm_compute|]). constructor.
  - apply classified_spam_iff; [split; [reflexivity | discriminate] | by vm_compute].
  - by vm_compute.
Qed.

(** * Further properties of the handlers *)

Section Outcomes.

Variables (update : Update) (env : Env) (b : Bot).

Let uid := user_id (effective_user update).
Let w := new_window b uid (now_received env).

(** The membership check, by the answer of the oracle. *)
Lemma in_channel_cases :
  in_channel env uid =
    match r_member env with
    | Returned status =>
        Returned (bool_decide (status ∈ ["member"; "administrator"; "creator"; "owner"]))
    | Raised OtherException => Raised OtherException
    | Raised _ => Returned false
    end.
Proof.
  unfold in_channel, outcome_of, is_user_in_channel, try_except, bind, transport, ret.
  by destruct (r_member env) as [status|[]].
Qed.

Lemma on_group_message_member :
  handled update env -> Z.of_nat (length w) <= SPAM_MAX_MSG ->
  in_channel env uid = Returned true ->
  on_group_message update env b = (Returned tt, put_window uid w b, [membership_call update]).
Proof.
  intros H Hp Hin. rewrite on_group_message_pass by done.
  rewrite force_join_check_run. fold uid. by rewrite Hin.
Qed.

Lemma on_group_message_lookup_raises e :
  handled update env -> Z.of_nat (length w) <= SPAM_MAX_MSG ->
  in_channel env uid = Raised e ->
  on_group_message update env b = (Raised e, put_window uid w b, [membership_call update]).
Proof.
  intros H Hp Hin. rewrite on_group_message_pass by done.
  rewrite force_join_check_run. fold uid. by rewrite Hin.
Qed.

Lemma on_group_message_non_member :
  handled update env -> Z.of_nat (length w) <= SPAM_MAX_MSG ->
  in_channel env uid = Returned false ->
  outcome_of (on_group_message update env) b = Returned tt.
Proof.
  intros H Hp Hin. unfold outcome_of.
  destruct (reminder_due (last_reminder b !! uid) (now_checked env)) eqn:Hdue.
  - by rewrite (non_member_due update env b H Hp Hin Hdue).
  - by rewrite (non_member_throttled update env b H Hp Hin Hdue).
Qed.

End Outcomes.

(** X1: a message that passes the rate check is deleted exactly when the
    status the oracle reports is none of member, administrator, creator and
    owner (a restricted or departed user, say).  For a member the only call
    is the membership look-up: nothing is deleted or sent, and only the
    sender's deque changes. *)
Theorem member_message_passes (update : Update) (env : Env) (b : Bot) (status : string) :
  handled update env ->
  let uid := user_id (effective_user update) in
  let w := new_window b uid (now_received env) in
  Z.of_nat (length w) <= SPAM_MAX_MSG ->
  r_member env = Returned status ->
  (DeleteMessage IncomingMessage ∈ calls_of (on_group_message update env) b <->
   status ∉ ["member"; "administrator"; "creator"; "owner"]) /\
  (status ∈ ["member"; "administrator"; "creator"; "owner"] ->
   on_group_message update env b
     = (Returned tt, put_window uid w b, [membership_call update])).
Proof.
  intros H uid w Hp Hs.
  pose proof (in_channel_cases update env) as Hin. fold uid in Hin. rewrite Hs in Hin.
  destruct (decide (status ∈ ["member"; "administrator"; "creator"; "owner"]))
    as [Hm|Hm].
  - rewrite (bool_decide_eq_true_2 _ Hm) in Hin.
    pose proof (on_group_message_member update env b H Hp Hin) as E.
    split; [|done]. unfold calls_of. rewrite E. simpl. split; [|done].
    intros Hd. apply list_elem_of_singleton in Hd. discriminate.
  - rewrite (bool_decide_eq_false_2 _ Hm) in Hin. split; [|done].
    split; [done|]. intros _. by apply non_member_deleted.
Qed.

(** A member, and a restricted user, each with a first message. *)
Lemma member_message_passes_witness :
  handled (message_of sample_user) (sample_env 0 (Returned "owner")) /\
  on_group_message (message_of sample_user) (sample_env 0 (Returned "owner")) init
    = (Returned tt, put_window 7 [0] init, [membership_call (message_of sample_user)]) /\
  DeleteMessage IncomingMessage
    ∈ calls_of (on_group_message (message_of sample_user)
                  (sample_env 0 (Returned "restricted"))) init.
Proof.
  assert (H : forall s, handled (message_of sample_user) (sample_env 0 (Returned s)))
    by (intros s; split; [reflexivity | discriminate]).
  assert (Hp : Z.of_nat (length (new_window init 7 0)) <= SPAM_MAX_MSG)
    by (vm_compute; discriminate).
  split; [apply H|]. split.
  - apply (member_message_passes _ _ init "owner" (H "owner") Hp eq_refl).
    repeat constructor.
  - apply (member_message_passes _ _ init "restricted" (H "restricted") Hp eq_refl).
    not_in_list.
Defined.

(** X2: the handler raises in one case only: the message passed the two
    guards and the rate check, and the membership look-up raised something
    other than [BadRequest] and [Forbidden].  The time stamp of the message
    is then already recorded, and the message is neither deleted nor
    answered.  A failing deletion or a failing send never makes it raise. *)
Theorem on_group_message_raises (update : Update) (env : Env) (b : Bot) (e : Exn) :
  let uid := user_id (effective_user update) in
  let w := new_window b uid (now_received env) in
  (outcome_of (on_group_message update env) b = Raised e <->
   handled update env /\ Z.of_nat (length w) <= SPAM_MAX_MSG /\
   r_member env = Raised OtherException /\ e = OtherException) /\
  (outcome_of (on_group_message update env) b = Raised e ->
   state_after (on_group_message update env) b = put_window uid w b /\
   calls_of (on_group_message update env) b = [membership_call update]).
Proof.
  intros uid w.
  assert (Hcases :
    outcome_of (on_group_message update env) b = Raised e ->
    (handled update env /\ Z.of_nat (length w) <= SPAM_MAX_MSG /\
     r_member env = Raised OtherException /\ e = OtherException) /\
    state_after (on_group_message update env) b = put_window uid w b /\
    calls_of (on_group_message update env) b = [membership_call update]).
  { intros Hr. destruct (decide (handled update env)) as [H|H].
    - destruct (Z.lt_ge_cases SPAM_MAX_MSG (Z.of_nat (length w))) as [Hs|Hp].
      + unfold outcome_of in Hr. by rewrite on_group_message_spam in Hr.
      + pose proof (in_channel_cases update env) as Hin. fold uid in Hin.
        destruct (in_channel env uid) as [[]|e'] eqn:Hi.
        * unfold outcome_of in Hr. by rewrite on_group_message_member in Hr.
        * by rewrite (on_group_message_non_member update env b H Hp Hi) in Hr.
        * pose proof (on_group_message_lookup_raises update env b e' H Hp Hi) as E.
          unfold outcome_of, state_after, calls_of in *. rewrite E in *.
          simpl in *. injection Hr as ->.
          destruct (r_member env) as [status|[]]; try discriminate.
          injection Hin as ->. done.
    - unfold outcome_of in Hr. by rewrite on_group_message_ignored in Hr. }
  split; [split|]; [exact (fun Hr => proj1 (Hcases Hr))| |exact (fun Hr => proj2 (Hcases Hr))].
  intros (H & Hp & Hm & ->).
  pose proof (in_channel_cases update env) as Hin. fold uid in Hin. rewrite Hm in Hin.
  unfold outcome_of. by rewrite (on_group_message_lookup_raises update env b _ H Hp Hin).
Qed.

(** A message on which the look-up times out. *)
Lemma on_group_message_raises_witness :
  outcome_of (on_group_message (message_of sample_user)
                (sample_env 0 (Raised OtherException))) init = Raised OtherException /\
  state_after (on_group_message (message_of sample_user)
                 (sample_env 0 (Raised OtherException))) init = put_window 7 [0] init.
Proof.
  pose proof (on_group_message_raises (message_of sample_user)
                (sample_env 0 (Raised OtherException)) init OtherException)
    as [Hiff Hstate].
  assert (Hr : outcome_of (on_group_message (message_of sample_user)
                  (sample_env 0 (Raised OtherException))) init = Raised OtherException).
  { apply Hiff. split; [split; [reflexivity | discriminate]|].
    split; [vm_compute; discriminate|]. by split. }
  split; [exact Hr|]. by apply Hstate.
Defined.

Section Delivery.

Variables (update : Update) (env env' : Env) (b : Bot).

Let uid := user_id (effective_user update).

Hypothesis Hsame : same_inputs env env'.

Lemma same_inputs_handled : handled update env <-> handled update env'.
Proof. destruct Hsame as (Hb & _). unfold handled. by rewrite Hb. Qed.

Lemma same_inputs_in_channel : in_channel env uid = in_channel env' uid.
Proof.
  destruct Hsame as (_ & _ & _ & _ & Hm).
  unfold uid.
  rewrite (in_channel_cases update env), (in_channel_cases update env').
  by rewrite Hm.
Qed.

Lemma notice_calls_cleanup :
  filter (fun c => is_notice_cleanup c = false) (notice_calls env) = [].
Proof. unfold notice_calls. by destruct (r_send env). Qed.

End Delivery.

Lemma spam_calls_visible update env count :
  filter (fun c => is_notice_cleanup c = false) (spam_calls update env count)
    = [DeleteMessage IncomingMessage;
       SendMessage (effective_chat_id update)
         (spam_warning_text (warning_name (effective_user update)) count) None None].
Proof.
  unfold spam_calls, notice_calls. by destruct (r_send env).
Qed.

Lemma force_join_check_visible update env b :
  let uid := user_id (effective_user update) in
  filter (fun c => is_notice_cleanup c = false) (calls_of (force_join_check update env) b)
    = match in_channel env uid with
      | Returned false =>
          if reminder_due (last_reminder b !! uid) (now_checked env)
          then [membership_call update; DeleteMessage IncomingMessage;
                join_reminder_call update]
          else [membership_call update; DeleteMessage IncomingMessage]
      | _ => [membership_call update]
      end.
Proof.
  intros uid. unfold calls_of. rewrite force_join_check_run. fold uid.
  destruct (in_channel env uid) as [[]|e]; [done| |done].
  destruct (reminder_due _ _); [|done].
  unfold notice_calls. by destruct (r_send env).
Qed.

(** X3: what the deletions and the sending of a notice answer has no effect
    on the handler beyond the removal of the notice: for the same clock
    readings and the same answer of the membership oracle, the outcome, the
    bot object afterwards (warning counts and reminder times included) and
    the calls other than the sleep and the deletion of a sent notice are the
    same, whether those calls succeed or raise. *)
Theorem delivery_failures_swallowed (update : Update) (env env' : Env) (b : Bot) :
  same_inputs env env' ->
  outcome_of (on_group_message update env) b
    = outcome_of (on_group_message update env') b /\
  state_after (on_group_message update env) b
    = state_after (on_group_message update env') b /\
  filter (fun c => is_notice_cleanup c = false) (calls_of (on_group_message update env) b)
    = filter (fun c => is_notice_cleanup c = false)
        (calls_of (on_group_message update env') b).
Proof.
  intros Hsame.
  pose proof (same_inputs_handled update env env' Hsame) as Hh.
  pose proof (same_inputs_in_channel update env env' Hsame) as Hin.
  destruct Hsame as (Hb & Hr & Hc & Hm & Ho).
  set (uid := user_id (effective_user update)) in *.
  destruct (decide (handled update env)) as [H|H].
  - assert (H' : handled update env') by (by apply Hh).
    set (w := new_window b uid (now_received env)).
    assert (Hw : new_window b uid (now_received env') = w) by (by rewrite <- Hr).
    destruct (Z.lt_ge_cases SPAM_MAX_MSG (Z.of_nat (length w))) as [Hs|Hp].
    + unfold outcome_of, state_after, calls_of.
      rewrite (on_group_message_spam update env b H Hs).
      rewrite (on_group_message_spam update env' b H'); [|by fold uid; rewrite Hw].
      fold uid. rewrite Hw. simpl. by rewrite !spam_calls_visible.
    + unfold outcome_of, state_after.
      assert (E : calls_of (on_group_message update env) b
                  = calls_of (force_join_check update env) (put_window uid w b))
        by (unfold calls_of; by rewrite on_group_message_pass).
      assert (E' : calls_of (on_group_message update env') b
                   = calls_of (force_join_check update env') (put_window uid w b)).
      { unfold calls_of. rewrite on_group_message_pass; [|done|by fold uid; rewrite Hw].
        fold uid. by rewrite Hw. }
      rewrite E, E', !force_join_check_visible. fold uid.
      rewrite (on_group_message_pass update env b H Hp).
      rewrite (on_group_message_pass update env' b H'); [|by fold uid; rewrite Hw].
      fold uid. rewrite Hw. rewrite !force_join_check_run. fold uid.
      rewrite <- Hin, <- Hc, <- Hm.
      destruct (in_channel env uid) as [[]|e]; [done| |done].
      by destruct (reminder_due _ _).
  - assert (H' : ~ handled update env') by (by rewrite <- Hh).
    unfold outcome_of, state_after, calls_of.
    by rewrite !on_group_message_ignored.
Qed.

(** The sample user, not in the channel, with every delivery failing. *)
Lemma delivery_failures_swallowed_witness :
  let env := sample_env 0 (Returned "left") in
  same_inputs env (send_fails env) /\
  last_reminder (state_after (on_group_message (message_of sample_user)
                                (send_fails env)) init) !! 7
    = Some (timedelta_seconds 60).
Proof.
  intros env.
  assert (Hs : same_inputs env (send_fails env)) by (by repeat split).
  split; [exact Hs|].
  destruct (delivery_failures_swallowed (message_of sample_user) env (send_fails env)
              init Hs) as (_ & <- & _).
  reflexivity.
Defined.

(** X4: a message of one user never touches what the bot holds of another
    user: for every user other than the sender the entries of [msg_times],
    [warnings] and [last_reminder] are the same before and after the handler,
    whatever branch it takes and whatever the transport answers. *)
Theorem other_users_untouched (update : Update) (env : Env) (b : Bot) (v : Z) :
  v <> user_id (effective_user update) ->
  let b' := state_after (on_group_message update env) b in
  msg_times b' !! v = msg_times b !! v /\
  warnings b' !! v = warnings b !! v /\
  last_reminder b' !! v = last_reminder b !! v.
Proof.
  intros Hv b'. set (uid := user_id (effective_user update)) in *.
  destruct (decide (handled update env)) as [H|H].
  - set (w := new_window b uid (now_received env)).
    destruct (Z.lt_ge_cases SPAM_MAX_MSG (Z.of_nat (length w))) as [Hs|Hp].
    + subst b'. unfold state_after. rewrite on_group_message_spam by done.
      simpl. fold uid. by rewrite !lookup_insert_ne.
    + assert (E : b' = state_after (force_join_check update env) (put_window uid w b))
        by (subst b'; unfold state_after; by rewrite on_group_message_pass).
      rewrite E, force_join_check_msg_times, force_join_check_warnings.
      rewrite force_join_check_other_reminders by done.
      simpl. by rewrite lookup_insert_ne.
  - subst b'. unfold state_after. by rewrite on_group_message_ignored.
Qed.

(** The other user keeps a reminder time while the sample user floods. *)
Lemma other_users_untouched_witness :
  let b := put_reminder 8 5 six_messages in
  8 <> user_id (effective_user (message_of sample_user)) /\
  last_reminder
    (state_after (on_group_message (message_of sample_user)
                    (sample_env (timedelta_seconds 6) (Returned "left"))) b) !! 8
    = Some 5.
Proof.
  intros b. split; [discriminate|].
  destruct (other_users_untouched (message_of sample_user)
              (sample_env (timedelta_seconds 6) (Returned "left")) b 8)
    as (_ & _ & ->); [discriminate|].
  reflexivity.
Defined.

(** X5: sending a notice never raises and never changes the bot object.
    When the send itself fails, the coroutine stops there: no sleep and no
    deletion follow.  When it succeeds, the coroutine sleeps
    [WARNING_AUTO_DELETE_SEC] seconds and then tries once to delete the
    notice, and a failure of that deletion is passed over. *)
Theorem notices_never_raise (chat_id : Z) (user : User) (name : string) (uid count : Z)
    (env : Env) (b : Bot) :
  let warning := SendMessage chat_id (spam_warning_text (warning_name user) count)
                   None None in
  let reminder := SendMessage chat_id (join_reminder_text name)
                    (Some join_button) (Some "Markdown") in
  let cleanup := match r_send env with
                 | Returned _ => [Sleep 60; DeleteMessage SentNotice]
                 | Raised _ => []
                 end in
  send_spam_warning chat_id user count env b = (Returned tt, b, warning :: cleanup) /\
  send_join_reminder chat_id name uid env b = (Returned tt, b, reminder :: cleanup).
Proof.
  intros warning reminder cleanup.
  by rewrite send_spam_warning_run, send_join_reminder_run.
Qed.

(** X6: the reminder time is marked even when the reminder could not be
    sent.  For a non-member's message that passes the rate check and is due
    a reminder, a failing send is followed by neither sleep nor deletion of
    a notice, yet [last_reminder] is set; a next message of the same
    non-member checked within two minutes of that mark is deleted without
    any reminder. *)
Theorem failed_reminder_still_throttles (update : Update) (env : Env) (b : Bot) (e : Exn) :
  handled update env ->
  let uid := user_id (effective_user update) in
  Z.of_nat (length (new_window b uid (now_received env))) <= SPAM_MAX_MSG ->
  in_channel env uid = Returned false ->
  reminder_due (last_reminder b !! uid) (now_checked env) = true ->
  r_send env = Raised e ->
  let b' := state_after (on_group_message update env) b in
  calls_of (on_group_message update env) b
    = [membership_call update; DeleteMessage IncomingMessage; join_reminder_call update] /\
  last_reminder b' !! uid = Some (now_marked env) /\
  forall update2 env2,
    handled update2 env2 ->
    user_id (effective_user update2) = uid ->
    Z.of_nat (length (new_window b' uid (now_received env2))) <= SPAM_MAX_MSG ->
    in_channel env2 uid = Returned false ->
    now_checked env2 - now_marked env <= timedelta_minutes 2 ->
    calls_of (on_group_message update2 env2) b'
      = [membership_call update2; DeleteMessage IncomingMessage].
Proof.
  intros H uid Hp Ho Hdue Hsend b'.
  pose proof (non_member_due update env b H Hp Ho Hdue) as E.
  assert (Hmark : last_reminder b' !! uid = Some (now_marked env)).
  { subst b'. unfold state_after. rewrite E. simpl. fold uid. apply lookup_insert_eq. }
  split; [|split; [exact Hmark|]].
  - unfold calls_of. rewrite E. unfold notice_calls. by rewrite Hsend.
  - intros update2 env2 H2 Hu Hp2 Ho2 Hnow.
    apply (second_message_throttled update2 env2 b' (now_marked env));
      rewrite ?Hu; done.
Qed.

(** The sample user, not in the channel, when nothing can be delivered. *)
Lemma failed_reminder_still_throttles_witness :
  let env := send_fails (sample_env 0 (Returned "kicked")) in
  let env2 := sample_env (timedelta_seconds 150) (Returned "kicked") in
  let b' := state_after (on_group_message (message_of sample_user) env) init in
  handled (message_of sample_user) env /\
  r_send env = Raised OtherException /\
  now_checked env2 - now_marked env <= timedelta_minutes 2 /\
  calls_of (on_group_message (message_of sample_user) env2) b'
    = [membership_call (message_of sample_user); DeleteMessage IncomingMessage].
Proof.
  intros env env2 b'.
  assert (H : handled (message_of sample_user) env)
    by (split; [reflexivity | discriminate]).
  assert (H2 : handled (message_of sample_user) env2)
    by (split; [reflexivity | discriminate]).
  assert (Hnow : now_checked env2 - now_marked env <= timedelta_minutes 2)
    by (vm_compute; discriminate).
  split; [exact H|]. split; [reflexivity|]. split; [exact Hnow|].
  destruct (failed_reminder_still_throttles (message_of sample_user) env init
              OtherException H) as (_ & _ & Hnext);
    [vm_compute; discriminate | reflexivity | reflexivity | reflexivity |].
  apply (Hnext (message_of sample_user) env2 H2 eq_refl);
    [vm_compute; discriminate | reflexivity | exact Hnow].
Defined.

(** * Further properties of the purge *)

Section Purge.

Implicit Types (dq : list Z) (cutoff t : Z).

Lemma filter_all_recent cutoff dq :
  Forall (fun t => cutoff <= t) dq -> filter (fun t => cutoff <= t) dq = dq.
Proof.
  induction 1 as [|t rest Ht _ IH]; [done|].
  rewrite filter_cons_True by done. by rewrite IH.
Qed.

End Purge.

(** X7: on a deque in the order of the clock, the loop that pops the old
    time stamps off the left end removes exactly the time stamps older than
    the cutoff and keeps all the others, one equal to the cutoff included:
    it computes the filter. *)
Theorem popleft_while_filter (cutoff : Z) (dq : list Z) :
  StronglySorted Z.le dq ->
  popleft_while cutoff dq = filter (fun t => cutoff <= t) dq.
Proof.
  induction 1 as [|t rest Hrest IH Ht]; [done|]. simpl.
  destruct (Z.ltb_spec t cutoff) as [Hlt|Hge].
  - rewrite filter_cons_False by lia. exact IH.
  - rewrite filter_cons_True by done. f_equal. symmetry.
    apply filter_all_recent. eapply Forall_impl; [exact Ht|]. simpl. lia.
Qed.

Lemma popleft_while_filter_witness :
  StronglySorted Z.le [1; 4; 4; 9] /\
  popleft_while 4 [1; 4; 4; 9] = filter (fun t => 4 <= t) [1; 4; 4; 9].
Proof.
  assert (Hs : StronglySorted Z.le [1; 4; 4; 9]).
  { repeat (constructor; [|repeat (constructor; [done|]); constructor]).
    constructor. }
  split; [exact Hs|]. exact (popleft_while_filter 4 [1; 4; 4; 9] Hs).
Defined.

(** X8: purging composes: a purge with a cutoff, followed by a purge with a
    later cutoff, leaves what the later purge alone leaves, on any deque
    (in the order of the clock or not).  In particular purging twice with
    the same cutoff is purging once. *)
Theorem popleft_while_compose (c1 c2 : Z) (dq : list Z) :
  c1 <= c2 ->
  popleft_while c2 (popleft_while c1 dq) = popleft_while c2 dq.
Proof.
  intros Hc. induction dq as [|t rest IH]; [done|]. simpl.
  destruct (Z.ltb_spec t c1) as [Hlt|Hge].
  - rewrite IH. by rewrite (proj2 (Z.ltb_lt t c2)) by lia.
  - reflexivity.
Qed.

Lemma popleft_while_compose_witness :
  3 <= 5 /\
  popleft_while 5 (popleft_while 3 [1; 7; 2; 4; 6]) = popleft_while 5 [1; 7; 2; 4; 6].
Proof. split; [lia|]. apply (popleft_while_compose 3 5). lia. Defined.

(** * Further properties of runs *)

Section Invariants.

Lemma on_group_message_bump update env b v :
  warning_count (state_after (on_group_message update env) b) v
    <= warning_count b v + (if user_id (effective_user update) =? v then 1 else 0).
Proof.
  set (uid := user_id (effective_user update)).
  destruct (decide (handled update env)) as [H|H].
  - set (w := new_window b uid (now_received env)).
    destruct (Z.lt_ge_cases SPAM_MAX_MSG (Z.of_nat (length w))) as [Hs|Hs].
    + unfold state_after. rewrite on_group_message_spam by done. simpl. fold uid w.
      destruct (Z.eqb_spec uid v) as [->|Hv].
      * rewrite warning_count_put_warning.
        change (warning_count (put_window v w b) v) with (warning_count b v). lia.
      * rewrite warning_count_put_warning_ne by done.
        change (warning_count (put_window uid w b) v) with (warning_count b v). lia.
    + unfold state_after. rewrite on_group_message_pass by done.
      change (warning_count (state_after (force_join_check update env)
                               (put_window uid w b)) v
              <= warning_count b v + (if uid =? v then 1 else 0)).
      unfold warning_count at 1. rewrite force_join_check_warnings.
      change (warning_count b v <= warning_count b v + (if uid =? v then 1 else 0)).
      destruct (uid =? v); lia.
  - unfold state_after. rewrite on_group_message_ignored by done. simpl.
    destruct (uid =? v); lia.
Qed.

Lemma cmd_reset_warnings_warnings update env b :
  warnings (state_after (cmd_reset_warnings update env) b) = warnings b \/
  warnings (state_after (cmd_reset_warnings update env) b) = ∅.
Proof.
  unfold state_after, cmd_reset_warnings, try_except, bind, transport, ret,
    warnings_clear, get_bot, put_bot.
  destruct (c_member env) as [status|e]; simpl.
  - destruct (bool_decide (status ∈ ["administrator"; "creator"])); simpl.
    + right. by destruct (c_reply_done env).
    + destruct (c_reply_denied env) as [[]|e]; simpl; [by left|].
      right. by destruct (c_reply_done env).
  - right. by destruct (c_reply_done env).
Qed.

Lemma run_chronological evs : forall b t,
  chronological b t -> clock_runs_forward t evs ->
  chronological (run evs b) (last_reading t evs).
Proof.
  induction evs as [|ev evs IH]; intros b t Hb Hc; [done|].
  rewrite run_cons. pose proof (chronological_step b t ev Hb) as Hstep.
  destruct ev as [update env|update env|]; simpl in *.
  - destruct Hc as [Ht Hc]. apply IH; [by apply Hstep | done].
  - by apply IH.
  - by apply IH.
Qed.

End Invariants.

(** X9: with a clock that does not go backwards, the deques stay in the
    order of the clock along every run of the bot from its construction,
    over messages of any users, reset commands and daily jobs: every deque is
    sorted, and none of its time stamps is later than the last clock
    reading.  (This is what makes the purge from the left end remove every
    old time stamp.) *)
Theorem deques_stay_chronological (evs : list Event) (t0 : Z) :
  clock_runs_forward t0 evs ->
  forall uid,
    StronglySorted Z.le (window (run evs init) uid) /\
    Forall (fun t => t <= last_reading t0 evs) (window (run evs init) uid).
Proof.
  intros Hc. apply (run_chronological evs init t0); [|done].
  apply chronological_init.
Qed.

Lemma deques_stay_chronological_witness :
  let evs := [message_at sample_user 0; message_at other_user 3; DailyJob;
              message_at sample_user 3; message_at sample_user 20] in
  clock_runs_forward 0 evs /\
  StronglySorted Z.le (window (run evs init) 7) /\
  Forall (fun t => t <= timedelta_seconds 20) (window (run evs init) 7).
Proof.
  intros evs.
  assert (Hc : clock_runs_forward 0 evs) by (by vm_compute).
  split; [exact Hc|]. exact (deques_stay_chronological evs 0 Hc 7).
Defined.

Section Budget.

Variable uid : Z.

(** After [m] messages of [uid]: the deque holds at most [m] time stamps,
    and the warnings are at most the messages beyond the first
    [SPAM_MAX_MSG]. *)
Let within_budget (b : Bot) (m : Z) : Prop :=
  Z.of_nat (length (window b uid)) <= m /\
  0 <= warning_count b uid <= Z.max 0 (m - SPAM_MAX_MSG).

Lemma step_within_budget ev b m :
  within_budget b m -> within_budget (step b ev) (m + messages_from uid [ev]).
Proof.
  unfold within_budget. intros (Hlen & H0 & Hmax).
  destruct ev as [update env|update env|]; simpl.
  - unfold step, handler.
    destruct (Z.eqb_spec (user_id (effective_user update)) uid) as [Hu|Hu].
    + rewrite <- Hu in *.
      destruct (decide (handled update env)) as [H|H].
      * set (w := new_window b (user_id (effective_user update)) (now_received env)).
        assert (Hw : Z.of_nat (length w)
                     <= Z.of_nat (length (window b (user_id (effective_user update)))) + 1).
        { pose proof (new_window_length b (user_id (effective_user update))
                        (now_received env)). subst w. lia. }
        destruct (Z.lt_ge_cases SPAM_MAX_MSG (Z.of_nat (length w))) as [Hs|Hs].
        -- split; [rewrite on_group_message_window by done; fold w; lia|].
           unfold state_after. rewrite on_group_message_spam by done. simpl.
           rewrite warning_count_put_warning.
           change (warning_count (put_window _ _ b) _) with
             (warning_count b (user_id (effective_user update))).
           fold w in Hs. unfold SPAM_MAX_MSG in *. lia.
        -- split; [rewrite on_group_message_window by done; fold w; lia|].
           pose proof (proj2 (passed_rate_check_iff update env b H) Hs) as [Hwarn _].
           unfold warning_count in *. rewrite Hwarn. unfold SPAM_MAX_MSG in *. lia.
      * unfold state_after. rewrite on_group_message_ignored by done. simpl.
        unfold SPAM_MAX_MSG in *. lia.
    + split.
      * rewrite on_group_message_other_window by done. lia.
      * pose proof (on_group_message_bump update env b uid) as Hb.
        pose proof (on_group_message_warning_count update env b uid).
        rewrite (proj2 (Z.eqb_neq _ _) Hu) in Hb. lia.
  - unfold step, handler. split.
    + unfold window. rewrite (proj1 (cmd_reset_warnings_msg_times update env b)).
      unfold window in Hlen. lia.
    + unfold warning_count in *.
      destruct (cmd_reset_warnings_warnings update env b) as [-> | ->].
      * lia.
      * rewrite lookup_empty. simpl. lia.
  - change (step b DailyJob) with init. unfold within_budget, window, warning_count, init.
    simpl. rewrite !lookup_empty. simpl. lia.
Qed.

Lemma run_within_budget evs : forall b m,
  within_budget b m -> within_budget (run evs b) (m + messages_from uid evs).
Proof.
  induction evs as [|ev evs IH]; intros b m Hb.
  - simpl. by rewrite Z.add_0_r.
  - rewrite run_cons.
    assert (E : m + messages_from uid (ev :: evs)
                = (m + messages_from uid [ev]) + messages_from uid evs)
      by (destruct ev as [update env|update env|]; simpl; lia).
    rewrite E. by apply IH, step_within_budget.
Qed.

Lemma init_within_budget : within_budget init 0.
Proof.
  unfold within_budget, window, warning_count, init. simpl. rewrite !lookup_empty.
  simpl. unfold SPAM_MAX_MSG. lia.
Qed.

Lemma run_init_budget evs :
  Z.of_nat (length (window (run evs init) uid)) <= messages_from uid evs /\
  0 <= warning_count (run evs init) uid
    <= Z.max 0 (messages_from uid evs - SPAM_MAX_MSG).
Proof. apply (run_within_budget evs init 0), init_within_budget. Qed.

End Budget.

(** X10: along every run of the bot from its construction, a user's deque
    holds at most as many time stamps as the user has sent group messages,
    and the warning count is never negative and never more than the number of
    those messages beyond the first [SPAM_MAX_MSG]: a user who has sent at
    most [SPAM_MAX_MSG] messages has no warning. *)
Theorem warnings_bounded_by_messages (evs : list Event) (uid : Z) :
  Z.of_nat (length (window (run evs init) uid)) <= messages_from uid evs /\
  0 <= warning_count (run evs init) uid
    <= Z.max 0 (messages_from uid evs - SPAM_MAX_MSG) /\
  (messages_from uid evs <= SPAM_MAX_MSG -> warning_count (run evs init) uid = 0).
Proof.
  destruct (run_init_budget uid evs) as (Hlen & H0 & Hmax).
  split; [done|]. split; [done|]. intros Hm. lia.
Qed.

(** Five messages of the sample user give no warning. *)
Lemma warnings_bounded_by_messages_witness :
  messages_from 7 (map (message_at sample_user) [0; 1; 2; 3; 4]) <= SPAM_MAX_MSG /\
  warning_count five_messages 7 = 0.
Proof.
  assert (Hm : messages_from 7 (map (message_at sample_user) [0; 1; 2; 3; 4])
               <= SPAM_MAX_MSG) by (vm_compute; discriminate).
  split; [exact Hm|].
  exact (proj2 (proj2 (warnings_bounded_by_messages
                         (map (message_at sample_user) [0; 1; 2; 3; 4]) 7)) Hm).
Defined.

(** A burst whose sixth message comes exactly [SPAM_WINDOW_SEC] seconds
    after the first. *)
Lemma burst_verdict_witness :
  let update := message_of sample_user in
  let envs := map (fun s => sample_env (timedelta_seconds s) (Returned "member"))
                [0; 2; 4; 6; 8] in
  let env := sample_env (timedelta_seconds 10) (Returned "member") in
  window init 7 = [] /\
  head (map now_received (envs ++ [env])) = Some 0 /\
  classified_spam update env (run (map (GroupMessage update) envs) init).
Proof.
  intros update envs env.
  assert (Hall : Forall (fun env => handled update env /\
                           now_received env - timedelta_seconds SPAM_WINDOW_SEC <= 0)
                   (envs ++ [env])).
  { repeat (constructor;
            [split; [split; [reflexivity | discriminate] | vm_compute; discriminate]|]).
    constructor. }
  split; [reflexivity|]. split; [reflexivity|].
  apply (burst_verdict update envs env init 0 eq_refl Hall eq_refl).
  vm_compute. discriminate.
Defined.

(** * Recovery, resets and isolation *)

(** X12: waiting clears the rate window but not the warnings.  When every
    time stamp stored for a user is older than [SPAM_WINDOW_SEC] seconds, the
    user's next message passes the rate check whatever happened before, the
    deque then holds that message alone, and the warning count is the one
    the user had. *)
Theorem quiet_period_recovers (update : Update) (env : Env) (b : Bot) :
  handled update env ->
  let uid := user_id (effective_user update) in
  Forall (fun t => t < now_received env - timedelta_seconds SPAM_WINDOW_SEC)
    (window b uid) ->
  let b' := state_after (on_group_message update env) b in
  passed_rate_check update env b /\
  window b' uid = [now_received env] /\
  warning_count b' uid = warning_count b uid.
Proof.
  intros H uid Hold b'.
  pose proof (new_window_after_idle update env b Hold) as Hw. fold uid in Hw.
  assert (Hp : passed_rate_check update env b).
  { apply passed_rate_check_iff; [done|]. fold uid. rewrite Hw. simpl.
    unfold SPAM_MAX_MSG. lia. }
  split; [exact Hp|]. split.
  - subst b'. rewrite on_group_message_window by done. exact Hw.
  - destruct Hp as [Hwarn _]. subst b'. unfold warning_count. by rewrite Hwarn.
Qed.

(** The sample user, warned once, writes again after a quiet quarter of a
    minute. *)
Lemma quiet_period_recovers_witness :
  let update := message_of sample_user in
  let env := sample_env (timedelta_seconds 20) (Returned "member") in
  handled update env /\
  Forall (fun t => t < now_received env - timedelta_seconds SPAM_WINDOW_SEC)
    (window six_messages 7) /\
  passed_rate_check update env six_messages /\
  warning_count (state_after (on_group_message update env) six_messages) 7 = 1.
Proof.
  intros update env.
  assert (H : handled update env) by (split; [reflexivity | discriminate]).
  assert (Hold : Forall (fun t => t < now_received env
                                      - timedelta_seconds SPAM_WINDOW_SEC)
                   (window six_messages 7)).
  { assert (Hw : window six_messages 7
                 = [0; 1000000; 2000000; 3000000; 4000000; 5000000])
      by (by vm_compute).
    rewrite Hw. repeat (constructor; [done|]). constructor. }
  destruct (quiet_period_recovers update env six_messages H Hold) as (Hp & _ & Hc).
  split; [exact H|]. split; [exact Hold|]. split; [exact Hp|].
  etrans; [exact Hc | by vm_compute].
Defined.

(** X13: the [resetwarnings] command, whoever calls it and whatever the
    transport answers, never touches the rate windows nor the reminder
    times, and it deals with the ledger as a whole: afterwards [warnings] is
    either what it was or empty. *)
Theorem reset_command_scope (update : Update) (env : CmdEnv) (b : Bot) :
  let b' := state_after (cmd_reset_warnings update env) b in
  msg_times b' = msg_times b /\
  last_reminder b' = last_reminder b /\
  (warnings b' = warnings b \/ warnings b' = ∅).
Proof.
  intros b'. destruct (cmd_reset_warnings_msg_times update env b) as [Hm Hl].
  split; [exact Hm|]. split; [exact Hl|]. apply cmd_reset_warnings_warnings.
Qed.





(** X16: a reset of the ledger does not forgive a flood.  After a
    [resetwarnings] that cleared the ledger, the next message of a user whose
    deque still holds more than [SPAM_MAX_MSG] time stamps in the window is
    classified spam at once, and the user's count is 1. *)
Theorem reset_does_not_forgive_flood (command : Update) (cenv : CmdEnv)
    (update : Update) (env : Env) (b : Bot) :
  let b1 := state_after (cmd_reset_warnings command cenv) b in
  let uid := user_id (effective_user update) in
  warnings b1 = ∅ ->
  handled update env ->
  SPAM_MAX_MSG < Z.of_nat (length (new_window b uid (now_received env))) ->
  classified_spam update env b1 /\
  warning_count (state_after (on_group_message update env) b1) uid = 1.
Proof.
  intros b1 uid Hclear H Hs.
  assert (Hw : new_window b1 uid (now_received env)
               = new_window b uid (now_received env)).
  { unfold new_window, window, b1.
    by rewrite (proj1 (cmd_reset_warnings_msg_times command cenv b)). }
  rewrite <- Hw in Hs.
  destruct (spam_again update env b1 H Hs) as [Hspam Hcount].
  split; [exact Hspam|]. fold uid in Hcount. rewrite Hcount.
  unfold warning_count. rewrite Hclear, lookup_empty. reflexivity.
Qed.

(** The creator resets the ledger, and the sample user goes on writing. *)
Lemma reset_does_not_forgive_flood_witness :
  let b1 := state_after (cmd_reset_warnings (message_of other_user)
                           (caller_env "creator")) six_messages in
  let env := sample_env (timedelta_seconds 6) (Returned "member") in
  warnings b1 = ∅ /\
  handled (message_of sample_user) env /\
  SPAM_MAX_MSG < Z.of_nat (length (new_window six_messages 7 (now_received env))) /\
  warning_count (state_after (on_group_message (message_of sample_user) env) b1) 7 = 1.
Proof.
  intros b1 env.
  assert (Hc : warnings b1 = ∅) by reflexivity.
  assert (H : handled (message_of sample_user) env)
    by (split; [reflexivity | discriminate]).
  assert (Hs : SPAM_MAX_MSG
               < Z.of_nat (length (new_window six_messages 7 (now_received env))))
    by (by vm_compute).
  split; [exact Hc|]. split; [exact H|]. split; [exact Hs|].
  exact (proj2 (reset_does_not_forgive_flood (message_of other_user)
                  (caller_env "creator") (message_of sample_user) env six_messages
                  Hc H Hs)).
Defined.

(** X17: the rate limit is per user.  Whether a message of a user is
    classified spam depends on the bot object through that user's deque
    alone, so handling a message of any other user first, whatever branch it
    takes, never changes the verdict. *)
Theorem verdict_is_per_user (update : Update) (env : Env) (b : Bot)
    (other : Update) (oenv : Env) :
  handled update env ->
  user_id (effective_user other) <> user_id (effective_user update) ->
  let b1 := state_after (on_group_message other oenv) b in
  (classified_spam update env b1 <-> classified_spam update env b) /\
  (passed_rate_check update env b1 <-> passed_rate_check update env b).
Proof.
  intros H Hne b1. set (uid := user_id (effective_user update)) in *.
  assert (Hw : new_window b1 uid (now_received env)
               = new_window b uid (now_received env)).
  { unfold new_window. subst b1.
    rewrite on_group_message_other_window; [done|]. by intros E; apply Hne. }
  rewrite !classified_spam_iff, !passed_rate_check_iff by done.
  fold uid. by rewrite Hw.
Qed.

(** The other user writes between the fifth and the sixth message of the
    sample user: the sixth is spam all the same. *)
Lemma verdict_is_per_user_witness :
  let update := message_of sample_user in
  let env := sample_env (timedelta_seconds 5) (Returned "member") in
  let oenv := sample_env (timedelta_seconds 5) (Returned "left") in
  handled update env /\
  user_id (effective_user (message_of other_user)) <> user_id (effective_user update) /\
  classified_spam update env
    (state_after (on_group_message (message_of other_user) oenv) five_messages).
Proof.
  intros update env oenv.
  assert (H : handled update env) by (split; [reflexivity | discriminate]).
  assert (Hne : user_id (effective_user (message_of other_user))
                <> user_id (effective_user update)) by discriminate.
  split; [exact H|]. split; [exact Hne|].
  apply (verdict_is_per_user update env five_messages (message_of other_user) oenv H Hne).
  apply classified_spam_iff; [exact H | by vm_compute].
Defined.

(** * The names in the notices *)

Section Names.



Lemma truthy_not_empty (s : string) : truthy s = true <-> s <> "".
Proof. by destruct s. Qed.

End Names.


